(** * missing_gettext: a shallow embedding of the pylint checker
      [MissingGettextRuChecker.visit_const] (src/missing_gettext.py)

    The checker visits every constant of an astroid tree.  A constant whose
    value is a [str] with a Cyrillic letter is reported (message W0001) unless
    its text is whitelisted by content, or some node on its parent chain is a
    gettext call or satisfies one of the structural whitelist rules.

    Python values are modelled dynamically: a node is an identity, a class
    and a finite table of attributes, so that [hasattr], [AttributeError] and
    the two [try] blocks of the source keep their meaning. *)

From Stdlib Require Import List String Ascii Bool NArith ZArith Lia Permutation.
Import ListNotations.

(* ===================================================================== *)
(** ** Python [str]: sequences of Unicode code points                     *)
(* ===================================================================== *)

Module PyStr.

Local Open Scope N_scope.

Definition pystr := list N.

(** An ASCII source literal as a [str]. *)
Fixpoint py (s : string) : pystr :=
  match s with
  | EmptyString => []
  | String a r => N_of_ascii a :: py r
  end.

Fixpoint str_eqb (a b : pystr) : bool :=
  match a, b with
  | [], [] => true
  | x :: a', y :: b' => (x =? y) && str_eqb a' b'
  | _, _ => false
  end.

(** [s.startswith(p)] *)
Fixpoint startswith (s p : pystr) : bool :=
  match p, s with
  | [], _ => true
  | x :: p', y :: s' => (x =? y) && startswith s' p'
  | _ :: _, [] => false
  end.

(** [s.endswith(p)] *)
Definition endswith (s p : pystr) : bool := startswith (rev s) (rev p).

(** [p in s] for two strings. *)
Fixpoint contains (s p : pystr) : bool :=
  match s with
  | [] => startswith [] p
  | _ :: t => startswith s p || contains t p
  end.

(** [s.split(c)] for a one-character separator. *)
Fixpoint split_char (sep : N) (s : pystr) : list pystr :=
  match s with
  | [] => [[]]
  | c :: t =>
      if c =? sep then [] :: split_char sep t
      else match split_char sep t with
           | r :: rs => (c :: r) :: rs
           | [] => [[c]]
           end
  end.

Definition between (lo hi c : N) : bool := (lo <=? c) && (c <=? hi).

(** [str.isspace] on one code point (the whitespace table of CPython). *)
Definition isspace (c : N) : bool :=
  between 9 13 c || between 28 32 c || (c =? 133) || (c =? 160)
  || (c =? 5760) || between 8192 8202 c || (c =? 8232) || (c =? 8233)
  || (c =? 8239) || (c =? 8287) || (c =? 12288).

Fixpoint lstrip (s : pystr) : pystr :=
  match s with
  | [] => []
  | c :: t => if isspace c then lstrip t else s
  end.

Definition rstrip (s : pystr) : pystr := rev (lstrip (rev s)).

(** [s.strip()] *)
Definition strip (s : pystr) : pystr := rstrip (lstrip s).

(** Code points of the letters used by the source. *)
Definition cyr_a  : N := 1072.  (* U+0430 *)
Definition cyr_ya : N := 1103.  (* U+044F *)
Definition cyr_A  : N := 1040.  (* U+0410 *)
Definition cyr_YA : N := 1071.  (* U+042F *)
Definition hyphen : N := 45.
Definition newline : N := 10.

(** [re.search('[а-яА-Я]', s)] is not [None]. *)
Definition search_cyrillic (s : pystr) : bool :=
  existsb (fun c => between cyr_a cyr_ya c || between cyr_A cyr_YA c) s.

(** The decimal grammar accepted by [float]: optional surrounding blanks,
    optional sign, digits with an optional fraction, optional exponent.
    This is a fragment of what [float] accepts ([inf], [nan], underscores
    and non-ASCII digits are left out).  Nothing is stated about it: the
    checker is modelled over an arbitrary acceptance predicate (see
    [float_ok] below), and [ascii_float] only instantiates that predicate
    in examples on Cyrillic texts, which [float] rejects as well. *)
Definition is_digit (c : N) : bool := between 48 57 c.

Fixpoint skip_digits (s : pystr) : pystr :=
  match s with
  | [] => []
  | c :: t => if is_digit c then skip_digits t else s
  end.

Definition skip_sign (s : pystr) : pystr :=
  match s with
  | c :: t => if (c =? 43) || (c =? 45) then t else s
  | [] => []
  end.

Definition exponent_ok (s : pystr) : bool :=
  match s with
  | [] => true
  | c :: t =>
      ((c =? 101) || (c =? 69))
      && (let d := skip_sign t in
          negb (List.length d =? List.length (skip_digits d))%nat
          && match skip_digits d with [] => true | _ :: _ => false end)
  end.

Definition ascii_float (text : pystr) : bool :=
  let s := skip_sign (strip text) in
  let r := skip_digits s in
  let int_digits := (List.length s - List.length r)%nat in
  match r with
  | c :: t =>
      if c =? 46 then
        let r' := skip_digits t in
        let frac_digits := (List.length t - List.length r')%nat in
        negb (int_digits + frac_digits =? 0)%nat && exponent_ok r'
      else negb (int_digits =? 0)%nat && exponent_ok r
  | [] => negb (int_digits =? 0)%nat
  end.

End PyStr.
Export PyStr.

Local Open Scope N_scope.
Local Open Scope string_scope.
Local Open Scope list_scope.

(* ===================================================================== *)
(** ** Python objects, exceptions and the operations the checker uses     *)
(* ===================================================================== *)

(** The astroid node classes named by the source, and a few that occur in
    the trees it walks.  No class of this list derives from another, so
    [isinstance] is equality of classes. *)
Inductive pyclass : Set :=
  | Module | Const | Name | Attribute | Call | Dict | Index | Subscript
  | Assign | AssignName | AssignAttr | Delete | Keyword | Compare | Expr
  | ClassDef | OtherNode.

Definition pyclass_eq_dec (a b : pyclass) : {a = b} + {a <> b}.
Proof. decide equality. Defined.

Definition class_eqb (a b : pyclass) : bool :=
  if pyclass_eq_dec a b then true else false.

(** A value is a builtin or a reference to a node.  A node carries its
    identity ([==] on astroid nodes is identity), its class and its
    attributes other than [parent]. *)
#[local] Unset Elimination Schemes.
Inductive value : Type :=
  | VNone
  | VBool (b : bool)
  | VInt (z : Z)
  | VStr (s : pystr)
  | VList (xs : list value)
  | VTuple (xs : list value)
  | VObj (o : pyobj)
with pyobj : Type :=
  | Obj (obj_id : N) (obj_class : pyclass) (obj_attrs : list (string * value)).
#[local] Set Elimination Schemes.

Definition obj_id (o : pyobj) : N := let 'Obj i _ _ := o in i.
Definition obj_class (o : pyobj) : pyclass := let 'Obj _ c _ := o in c.
Definition obj_attrs (o : pyobj) : list (string * value) :=
  let 'Obj _ _ a := o in a.

(** A node seen from below: itself and its [parent] link ([None] at the
    root).  The checker only ever follows [parent] upwards. *)
Inductive NodeNG : Type :=
  | Root (o : pyobj)
  | Child (o : pyobj) (up : NodeNG).

Definition self (n : NodeNG) : pyobj :=
  match n with
  | Root o | Child o _ => o
  end.

Definition parent (n : NodeNG) : option NodeNG :=
  match n with
  | Root _ => None
  | Child _ p => Some p
  end.

Inductive exn : Set := AttributeError | TypeError | IndexError.

Inductive result (A : Type) : Type :=
  | Ok (a : A)
  | Raise (e : exn).
Arguments Ok {A} a.
Arguments Raise {A} e.

Definition bind {A B} (c : result A) (k : A -> result B) : result B :=
  match c with
  | Ok a => k a
  | Raise e => Raise e
  end.

Notation "x <- c ;; k" := (bind c (fun x => k))
  (at level 61, c at next level, right associativity).

(** Python's short-circuit [a and b] on tests that may raise. *)
Definition and_then (a : bool) (b : result bool) : result bool :=
  if a then b else Ok false.
Notation "a &&> b" := (and_then a b) (at level 40, left associativity).

Fixpoint assoc (k : string) (l : list (string * value)) : option value :=
  match l with
  | [] => None
  | (k', v) :: r => if String.eqb k k' then Some v else assoc k r
  end.

(** [o.a] on a node. *)
Definition attr (o : pyobj) (a : string) : result value :=
  match assoc a (obj_attrs o) with
  | Some v => Ok v
  | None => Raise AttributeError
  end.

(** [v.a] on any value; no builtin has one of the attributes read here. *)
Definition getattr (v : value) (a : string) : result value :=
  match v with
  | VObj o => attr o a
  | _ => Raise AttributeError
  end.

Definition hasattr (v : value) (a : string) : bool :=
  match getattr v a with
  | Ok _ => true
  | Raise _ => false
  end.

Definition isinstance (v : value) (c : pyclass) : bool :=
  match v with
  | VObj o => class_eqb (obj_class o) c
  | _ => false
  end.

Definition is_list (v : value) : bool :=
  match v with
  | VList _ => true
  | _ => false
  end.

(** [iter(v)]: the elements a [for] or a comprehension runs over. *)
Definition py_iter (v : value) : result (list value) :=
  match v with
  | VList xs | VTuple xs => Ok xs
  | VStr s => Ok (map (fun c => VStr [c]) s)
  | _ => Raise TypeError
  end.

(** [len(v)] *)
Definition py_len (v : value) : result nat :=
  xs <- py_iter v ;; Ok (List.length xs).

(** [v[i]] for a non-negative index. *)
Definition getitem (v : value) (i : nat) : result value :=
  xs <- py_iter v ;;
  match nth_error xs i with
  | Some x => Ok x
  | None => Raise IndexError
  end.

Fixpoint mapM {A B} (f : A -> result B) (l : list A) : result (list B) :=
  match l with
  | [] => Ok []
  | a :: r => b <- f a ;; bs <- mapM f r ;; Ok (b :: bs)
  end.

(** [v == n] where [n] is a node: true only for the same node. *)
Definition eq_node (v : value) (n : pyobj) : bool :=
  match v with
  | VObj o => N.eqb (obj_id o) (obj_id n)
  | _ => false
  end.

(** [n in vs] for a list of values. *)
Definition node_in (n : pyobj) (vs : list value) : bool :=
  existsb (fun v => eq_node v n) vs.

(** [v in names] for a list of strings. *)
Definition str_in (v : value) (names : list pystr) : bool :=
  match v with
  | VStr s => existsb (str_eqb s) names
  | _ => false
  end.

(* ===================================================================== *)
(** ** The checker                                                        *)
(* ===================================================================== *)

(** What [add_message] receives. *)
Record message : Type := add_message {
  msgid : string;
  msg_node : N;
  args : value
}.

Inductive Verdict : Set := EXEMPT | FLAGGED.

Section Checker.

(** [float_ok text]: the builtin [float(text)] returns instead of raising
    [ValueError]. *)
Variable float_ok : pystr -> bool.

(** [django.db.models.__all__] *)
Variable __all__ : list pystr.

Definition is_number (text : pystr) : bool :=
  if float_ok text then true else false.

Definition _is_cyrillic_str (obj : value) : bool :=
  match obj with
  | VStr s => search_cyrillic s
  | _ => false
  end.

Definition _is_comment_in_sql (obj : pystr) : bool :=
  let rows := split_char newline obj in
  let rows := map strip rows in
  existsb (fun i => startswith i (py "--")) rows.

Definition whitelisted_strings : list (pystr -> bool) :=
  [ (fun x => str_eqb x []);
    is_number;
    (fun x => startswith x (py "^") && endswith x (py "$"));
    (fun x => contains x (py "[^")
              || contains x [cyr_a; hyphen; cyr_ya]
              || contains x [cyr_A; hyphen; cyr_YA]);
    (fun x => startswith x (py "/") || endswith x (py "/"));
    _is_comment_in_sql ].

Definition rule : Type := pyclass * (pyobj -> pyobj -> result bool).

Definition dict_rule (curr_node node : pyobj) : result bool :=
  items <- attr curr_node "items" ;;
  xs <- py_iter items ;;
  keys <- mapM (fun x => getitem x 0) xs ;;
  Ok (node_in node keys).

Definition index_rule (curr_node node : pyobj) : result bool :=
  v <- attr curr_node "value" ;; Ok (eq_node v node).

Definition assign_rule (curr_node node : pyobj) : result bool :=
  targets <- attr curr_node "targets" ;;
  n <- py_len targets ;;
  Nat.eqb n 1 &&>
  (t0 <- getitem targets 0 ;;
   hasattr t0 "name" &&>
   (name <- getattr t0 "name" ;;
    Ok (str_in name
          [py "db_table"; py "verbose_name"; py "verbose_name_plural"]))).

Definition delete_rule (curr_node node : pyobj) : result bool :=
  v <- attr curr_node "value" ;; Ok (eq_node v node).

Definition keyword_rule (curr_node node : pyobj) : result bool :=
  arg <- attr curr_node "arg" ;;
  str_in arg [py "verbose_name"; py "help_text"] &&>
  (v <- attr curr_node "value" ;; Ok (eq_node v node)).

Definition compare_ops_rule (curr_node node : pyobj) : result bool :=
  ops <- attr curr_node "ops" ;;
  op0 <- getitem ops 0 ;;
  rhs <- getitem op0 1 ;;
  Ok (eq_node rhs node).

Definition compare_left_rule (curr_node node : pyobj) : result bool :=
  left <- attr curr_node "left" ;; Ok (eq_node left node).

Definition queryset_names : list pystr :=
  [py "has_key"; py "pop"; py "order_by"; py "strftime"; py "strptime";
   py "get"; py "select_related"; py "values"; py "filter";
   py "values_list"].

Definition queryset_rule (curr_node node : pyobj) : result bool :=
  func <- attr curr_node "func" ;;
  isinstance func Attribute &&>
  (attrname <- getattr func "attrname" ;;
   Ok (str_in attrname queryset_names)).

Definition logging_names : list pystr :=
  [py "logging"; py "logger"; py "console_logger"].

Definition logging_rule (curr_node node : pyobj) : result bool :=
  func <- attr curr_node "func" ;;
  expr <- getattr func "expr" ;;
  name <- getattr expr "name" ;;
  Ok (str_in name logging_names).

Definition model_field_rule (curr_node node : pyobj) : result bool :=
  func <- attr curr_node "func" ;;
  attrname <- getattr func "attrname" ;;
  str_in attrname __all__ &&>
  (hasattr (VObj curr_node) "args" &&>
   (args <- attr curr_node "args" ;;
    is_list args &&>
    (n <- py_len args ;;
     Nat.ltb 0 n &&>
     (a0 <- getitem args 0 ;; Ok (eq_node a0 node))))).

Definition whitelist : list rule :=
  [ (Dict, dict_rule);
    (Index, index_rule);
    (Assign, assign_rule);
    (Delete, delete_rule);
    (Keyword, keyword_rule);
    (Compare, compare_ops_rule);
    (Compare, compare_left_rule);
    (Call, queryset_rule);
    (Call, logging_rule);
    (Call, model_field_rule) ].

Definition gettext_names : list pystr :=
  [py "_"; py "ugettext"; py "ugettext_lazy"; py "gettext";
   py "gettext_lazy"; py "pgettext"; py "pgettext_lazy"; py "ngettext";
   py "ngettext_lazy"].

(** Lines 183-198: the test that ends the walk inside a [_()] call. *)
Definition in_gettext_call (curr_node : pyobj) : bool :=
  if class_eqb (obj_class curr_node) Call then
    match attr curr_node "func" with
    | Ok func =>
        if hasattr func "name" then
          match getattr func "name" with
          | Ok name => str_in name gettext_names
          | Raise _ => false
          end
        else false
    | Raise _ => false
    end
  else false.

(** Lines 201-211: the [for] over the whitelist at one node.  [Ok true] is
    the [break] after [string_ok = True]; an [AttributeError] of a rule is
    passed over; any other exception leaves the loop. *)
Fixpoint run_whitelist (wl : list rule) (curr_node node : pyobj)
  : result bool :=
  match wl with
  | [] => Ok false
  | (cls, func) :: rest =>
      if class_eqb (obj_class curr_node) cls then
        match func curr_node node with
        | Ok true => Ok true
        | Ok false => run_whitelist rest curr_node node
        | Raise AttributeError => run_whitelist rest curr_node node
        | Raise e => Raise e
        end
      else run_whitelist rest curr_node node
  end.

(** Lines 177-215: the [while] loop inside the outer [try], up to the
    [except] clause.  The result is the final [string_ok] and the exception
    caught by the outer handler, if any.  The body of that handler (lines
    216-218, three [print]s that go through [as_string]) is not modelled. *)
Fixpoint ancestor_loop (wl : list rule) (node : pyobj) (string_ok : bool)
  (curr_node : NodeNG) : bool * option exn :=
  match curr_node with
  | Root _ => (string_ok, None)
  | Child o up =>
      if in_gettext_call o then (true, None)
      else
        match run_whitelist wl o node with
        | Ok true => ancestor_loop wl node true up
        | Ok false => ancestor_loop wl node string_ok up
        | Raise e => (string_ok, Some e)
        end
  end.

(** Lines 70-223, for a given whitelist.  When the walk ends in the outer
    handler the source runs the handler's [print]s before line 220; the
    outcome given here is the one reached when they return.  On well-shaped
    trees the handler is never entered (see [ancestor_loop_no_abort]). *)
Definition visit_const_with (wl : list rule) (node : NodeNG)
  : result (option message) :=
  value <- attr (self node) "value" ;;
  if negb (_is_cyrillic_str value) then Ok None
  else
    match value with
    | VStr text =>
        if existsb (fun func => func text) whitelisted_strings then Ok None
        else
          let string_ok := fst (ancestor_loop wl (self node) false node) in
          if negb string_ok
          then Ok (Some (add_message "W0001" (obj_id (self node)) value))
          else Ok None
    | _ => Ok None
    end.

Definition visit_const (node : NodeNG) : result (option message) :=
  visit_const_with whitelist node.

(** The verdict the host reads off a visit: a message means FLAGGED. *)
Definition classify (node : NodeNG) : result Verdict :=
  m <- visit_const node ;;
  Ok (match m with Some _ => FLAGGED | None => EXEMPT end).

End Checker.

(* ===================================================================== *)
(** ** astroid trees                                                      *)
(* ===================================================================== *)

(** The attributes astroid gives to the nodes the checker meets, used to
    build the trees of the examples. *)
Module Astroid.

Definition mkModule (i : N) : pyobj := Obj i Module [("name", VStr (py "m"))].
Definition mkClassDef (i : N) (name : pystr) : pyobj :=
  Obj i ClassDef [("name", VStr name)].
Definition mkConst (i : N) (v : value) : pyobj := Obj i Const [("value", v)].
Definition mkName (i : N) (name : pystr) : pyobj :=
  Obj i Name [("name", VStr name)].
Definition mkAssignName (i : N) (name : pystr) : pyobj :=
  Obj i AssignName [("name", VStr name)].
Definition mkAttribute (i : N) (attrname : pystr) (expr : pyobj) : pyobj :=
  Obj i Attribute [("attrname", VStr attrname); ("expr", VObj expr)].
Definition mkKeyword (i : N) (arg : pystr) (v : pyobj) : pyobj :=
  Obj i Keyword [("arg", VStr arg); ("value", VObj v)].
Definition mkCall (i : N) (func : pyobj) (arguments keywords : list pyobj)
  : pyobj :=
  Obj i Call [("func", VObj func); ("args", VList (map VObj arguments));
              ("keywords", VList (map VObj keywords))].
Definition mkDict (i : N) (items : list (pyobj * pyobj)) : pyobj :=
  Obj i Dict
    [("items", VList (map (fun kv => VTuple [VObj (fst kv); VObj (snd kv)])
                          items))].
Definition mkIndex (i : N) (v : pyobj) : pyobj :=
  Obj i Index [("value", VObj v)].
Definition mkSubscript (i : N) (v slice : pyobj) : pyobj :=
  Obj i Subscript [("value", VObj v); ("slice", VObj slice)].
Definition mkAssign (i : N) (targets : list pyobj) (v : pyobj) : pyobj :=
  Obj i Assign [("targets", VList (map VObj targets)); ("value", VObj v)].
Definition mkDelete (i : N) (targets : list pyobj) : pyobj :=
  Obj i Delete [("targets", VList (map VObj targets))].
Definition mkCompare (i : N) (left : pyobj) (ops : list (pystr * pyobj))
  : pyobj :=
  Obj i Compare
    [("left", VObj left);
     ("ops", VList (map (fun p => VTuple [VStr (fst p); VObj (snd p)]) ops))].
Definition mkExpr (i : N) (v : pyobj) : pyobj :=
  Obj i Expr [("value", VObj v)].

(** A parent chain from the innermost node outwards; the last object is
    the root. *)
Fixpoint chain (o : pyobj) (ups : list pyobj) : NodeNG :=
  match ups with
  | [] => Root o
  | p :: r => Child o (chain p r)
  end.

End Astroid.

(** The nodes the [while] loop examines: the literal and its ancestors,
    the root excluded. *)
Fixpoint scan_path (n : NodeNG) : list pyobj :=
  match n with
  | Root _ => []
  | Child o up => o :: scan_path up
  end.

(** The literal and all its ancestors. *)
Fixpoint ancestors (n : NodeNG) : list pyobj :=
  match n with
  | Root o => [o]
  | Child o up => o :: ancestors up
  end.

Fixpoint root (n : NodeNG) : pyobj :=
  match n with
  | Root o => o
  | Child _ up => root up
  end.

(** The container attributes the rules iterate over have the shape astroid
    gives them: [Dict.items] and [Compare.ops] are lists of pairs, the
    latter not empty, and [Assign.targets] is a list. *)
Definition is_pair (v : value) : bool :=
  match v with
  | VTuple [_; _] => true
  | _ => false
  end.

Definition astroid_fields (o : pyobj) : bool :=
  match obj_class o with
  | Dict =>
      match attr o "items" with
      | Ok (VList xs) => forallb is_pair xs
      | _ => false
      end
  | Compare =>
      match attr o "ops" with
      | Ok (VList (x :: xs)) => forallb is_pair (x :: xs)
      | _ => false
      end
  | Assign =>
      match attr o "targets" with
      | Ok (VList _) => true
      | _ => false
      end
  | _ => true
  end.

(** An astroid tree as the checker sees it from a literal: the nodes below
    the root are well shaped, and the root is the module. *)
Definition well_shaped (n : NodeNG) : Prop :=
  forallb astroid_fields (scan_path n) = true.

Definition astroid_tree (n : NodeNG) : Prop :=
  obj_class (root n) = Module /\ well_shaped n.

(** Lines 220-223. *)
Definition scan_verdict (string_ok : bool) : Verdict :=
  if string_ok then EXEMPT else FLAGGED.

(** A rule's outcome with the inner handler applied. *)
Definition swallow (r : result bool) : result bool :=
  match r with
  | Raise AttributeError => Ok false
  | _ => r
  end.

Definition same_rule_modulo_attribute_error (literal : pyobj) (r r' : rule)
  : Prop :=
  fst r = fst r' /\
  forall curr_node, swallow (snd r curr_node literal)
                    = swallow (snd r' curr_node literal).

(* --------------------------------------------------------------------- *)
(** *** The scenarios of the specification                                *)
(* --------------------------------------------------------------------- *)

Module Scenarios.
Import Astroid.

Definition zakaz : pystr := [1047; 1072; 1082; 1072; 1079].       (* Заказ *)
Definition tovar : pystr := [1090; 1086; 1074; 1072; 1088].       (* товар *)
Definition fields : list pystr := [py "CharField"; py "TextField"].

Definition lit (s : pystr) : pyobj := mkConst 1 (VStr s).
Definition run (n : NodeNG) : result Verdict := classify ascii_float fields n.

(** [class Meta: db_table = 'Заказ'] *)
Definition db_table_tree : NodeNG :=
  chain (lit zakaz)
    [mkAssign 2 [mkAssignName 3 (py "db_table")] (lit zakaz);
     mkClassDef 4 (py "Meta"); mkModule 0].

(** [_('Заказ')] *)
Definition gettext_tree : NodeNG :=
  chain (lit zakaz)
    [mkCall 2 (mkName 3 (py "_")) [lit zakaz] [];
     mkExpr 4 (mkCall 2 (mkName 3 (py "_")) [lit zakaz] []); mkModule 0].

(** ['Заказ'] as a statement *)
Definition bare_tree : NodeNG :=
  chain (lit zakaz) [mkExpr 2 (lit zakaz); mkModule 0].

(** [models.CharField('Заказ', default='')] and [CharField('Заказ')] *)
Definition field_call (func : pyobj) : pyobj :=
  mkCall 2 func [lit zakaz] [].
Definition qualified_field_tree : NodeNG :=
  let f := mkAttribute 3 (py "CharField") (mkName 4 (py "models")) in
  chain (lit zakaz) [field_call f; mkExpr 5 (field_call f); mkModule 0].
Definition unqualified_field_tree : NodeNG :=
  let f := mkName 3 (py "CharField") in
  chain (lit zakaz) [field_call f; mkExpr 5 (field_call f); mkModule 0].

(** [queryset.order_by('товар')] *)
Definition order_by_tree : NodeNG :=
  let c := mkCall 2 (mkAttribute 3 (py "order_by") (mkName 4 (py "queryset")))
                  [lit tovar] [] in
  chain (lit tovar) [c; mkExpr 5 c; mkModule 0].

(** [del d['товар']] *)
Definition del_tree : NodeNG :=
  let sub := mkSubscript 3 (mkName 4 (py "d")) (mkIndex 2 (lit tovar)) in
  chain (lit tovar) [mkIndex 2 (lit tovar); sub; mkDelete 5 [sub]; mkModule 0].

(** [{'k': 'товар'}] *)
Definition dict_value_tree : NodeNG :=
  let d := mkDict 2 [(mkConst 3 (VStr (py "k")), lit tovar)] in
  chain (lit tovar) [d; mkExpr 5 d; mkModule 0].

End Scenarios.

(** Further trees used below. *)

(** The literal ['^[^а-я]+$'] as a statement. *)
Definition regex_text : pystr :=
  py "^[^" ++ [cyr_a; hyphen; cyr_ya] ++ py "]+$".
Definition regex_tree : NodeNG :=
  Astroid.chain (Astroid.mkConst 1 (VStr regex_text))
    [Astroid.mkExpr 2 (Astroid.mkConst 1 (VStr regex_text));
     Astroid.mkModule 0].

Definition latin_tree : NodeNG :=
  Astroid.chain (Astroid.mkConst 1 (VStr (py "order")))
    [Astroid.mkExpr 2 (Astroid.mkConst 1 (VStr (py "order")));
     Astroid.mkModule 0].

(** [{'товар': 1}]: the literal is the key. *)
Definition dict_key_tree : NodeNG :=
  let d := Astroid.mkDict 2
             [(Scenarios.lit Scenarios.tovar, Astroid.mkConst 3 (VInt 1))] in
  Astroid.chain (Scenarios.lit Scenarios.tovar)
    [d; Astroid.mkExpr 5 d; Astroid.mkModule 0].

(** [models.CharField('x', 'Заказ')]: the literal is the second argument. *)
Definition second_argument_call : pyobj :=
  Astroid.mkCall 2
    (Astroid.mkAttribute 3 (py "CharField") (Astroid.mkName 4 (py "models")))
    [Astroid.mkConst 6 (VStr (py "x")); Scenarios.lit Scenarios.zakaz] [].
Definition second_argument_tree : NodeNG :=
  Astroid.chain (Scenarios.lit Scenarios.zakaz)
    [second_argument_call; Astroid.mkExpr 5 second_argument_call;
     Astroid.mkModule 0].


(** [logger.info(fmt('Заказ'))]: the literal is an argument of the inner
    call only. *)
Definition inner_call : pyobj :=
  Astroid.mkCall 2 (Astroid.mkName 3 (py "fmt"))
    [Scenarios.lit Scenarios.zakaz] [].
Definition logger_call : pyobj :=
  Astroid.mkCall 4
    (Astroid.mkAttribute 5 (py "info") (Astroid.mkName 6 (py "logger")))
    [inner_call] [].
Definition nested_logging_tree : NodeNG :=
  Astroid.chain (Scenarios.lit Scenarios.zakaz)
    [inner_call; logger_call; Astroid.mkExpr 7 logger_call;
     Astroid.mkModule 0].

(** For a list of pairs the comprehension [[x[0] for x in items]] returns
    the first components. *)
Definition first_of (v : value) : value :=
  match v with
  | VTuple (k :: _) => k
  | _ => VNone
  end.

(** A rule with the inner handler folded into its test. *)
Definition swallowed (r : rule) : rule :=
  (fst r, fun curr_node node => swallow (snd r curr_node node)).

(** [verbose_name = fmt('Заказ')]: the literal lies inside the value. *)
Definition nested_assign : pyobj :=
  Astroid.mkAssign 4 [Astroid.mkAssignName 5 (py "verbose_name")] inner_call.
Definition nested_assign_tree : NodeNG :=
  Astroid.chain (Scenarios.lit Scenarios.zakaz)
    [inner_call; nested_assign; Astroid.mkModule 0].

(** [self.verbose_name = 'Заказ'] *)
Definition attribute_target_assign : pyobj :=
  Obj 2 Assign
    [("targets",
      VList [VObj (Obj 3 AssignAttr
                     [("attrname", VStr (py "verbose_name"));
                      ("expr", VObj (Astroid.mkName 4 (py "self")))])]);
     ("value", VObj (Scenarios.lit Scenarios.zakaz))].
Definition attribute_target_tree : NodeNG :=
  Astroid.chain (Scenarios.lit Scenarios.zakaz)
    [attribute_target_assign; Astroid.mkModule 0].

(** [f(help_text='Заказ')] and [f(label='Заказ')] *)
Definition help_text_keyword : pyobj :=
  Astroid.mkKeyword 2 (py "help_text") (Scenarios.lit Scenarios.zakaz).
Definition keyword_tree (k : pyobj) : NodeNG :=
  let c := Astroid.mkCall 3 (Astroid.mkName 4 (py "f")) [] [k] in
  Astroid.chain (Scenarios.lit Scenarios.zakaz)
    [k; c; Astroid.mkExpr 5 c; Astroid.mkModule 0].
Definition help_text_tree : NodeNG := keyword_tree help_text_keyword.
Definition label_tree : NodeNG :=
  keyword_tree
    (Astroid.mkKeyword 2 (py "label") (Scenarios.lit Scenarios.zakaz)).

(** [status == 'Заказ'] and [a == b == 'Заказ'] *)
Definition compare_first : pyobj :=
  Astroid.mkCompare 2 (Astroid.mkName 3 (py "status"))
    [(py "==", Scenarios.lit Scenarios.zakaz)].
Definition compare_first_tree : NodeNG :=
  Astroid.chain (Scenarios.lit Scenarios.zakaz)
    [compare_first; Astroid.mkExpr 5 compare_first; Astroid.mkModule 0].
Definition compare_chained : pyobj :=
  Astroid.mkCompare 2 (Astroid.mkName 3 (py "a"))
    [(py "==", Astroid.mkName 4 (py "b"));
     (py "==", Scenarios.lit Scenarios.zakaz)].
Definition compare_chained_tree : NodeNG :=
  Astroid.chain (Scenarios.lit Scenarios.zakaz)
    [compare_chained; Astroid.mkExpr 5 compare_chained; Astroid.mkModule 0].

(** A dictionary node whose [items] is not a sequence, below [_(...)]. *)
Definition broken_dict : pyobj := Obj 2 Dict [("items", VNone)].
Definition broken_dict_tree : NodeNG :=
  Astroid.chain (Scenarios.lit Scenarios.zakaz)
    [broken_dict;
     Astroid.mkCall 3 (Astroid.mkName 4 (py "_")) [broken_dict] [];
     Astroid.mkModule 0].

(* --------------------------------------------------------------------- *)
(** *** The other functions of the module                                 *)
(* --------------------------------------------------------------------- *)

(** [bool(v)] *)
Definition truthy (v : value) : bool :=
  match v with
  | VNone => false
  | VBool b => b
  | VInt z => negb (Z.eqb z 0)
  | VStr s => negb (Nat.eqb (List.length s) 0)
  | VList xs | VTuple xs => negb (Nat.eqb (List.length xs) 0)
  | VObj _ => true
  end.

(** Lines 20-27.  [child] may be [None]; [node == parent] is identity. *)
Fixpoint is_child_node_loop (node : NodeNG) (parent : value) : bool :=
  match node with
  | Root o => eq_node parent o
  | Child o up =>
      if eq_node parent o then true else is_child_node_loop up parent
  end.

Definition is_child_node (child : option NodeNG) (parent : value) : bool :=
  match child with
  | None => false
  | Some node => is_child_node_loop node parent
  end.

(** Lines 35-43.  The parenthesised test is followed by a comma: the
    function returns a one-element tuple. *)
Definition _is_regex (obj : pystr) : value :=
  VTuple
    [VBool (startswith obj (py "^") && endswith obj (py "$")
            || existsb (fun i => contains obj i)
                 [py "[^"; [cyr_a; hyphen; cyr_ya]; [cyr_A; hyphen; cyr_YA]])].

(** Lines 226-228: the new value of [linter.config.black_list]. *)
Definition load_configuration (black_list : list pystr) : list pystr :=
  black_list ++ [py "migrations"; py "tests"; py "factories.py"; py "tests.py"].

(** [under pre n]: the nodes of [pre], innermost first, placed below [n]. *)
Fixpoint under (pre : list pyobj) (n : NodeNG) : NodeNG :=
  match pre with
  | [] => n
  | o :: r => Child o (under r n)
  end.

(** Whether a rule applies to a node and its test returns [True]. *)
Definition rule_matches (curr_node node : pyobj) (r : rule) : bool :=
  class_eqb (obj_class curr_node) (fst r)
  && match snd r curr_node node with
     | Ok true => true
     | _ => false
     end.

(* --------------------------------------------------------------------- *)
(** *** The scan of the specification                                     *)
(* --------------------------------------------------------------------- *)

(** The nine localization-call names of the specification. *)
Definition localization_call_names : list pystr :=
  [py "_"; py "ugettext"; py "ugettext_lazy"; py "gettext";
   py "gettext_lazy"; py "pgettext"; py "pgettext_lazy"; py "ngettext";
   py "ngettext_lazy"].

(** "[current] is a call node whose callee is a bare name equal to one of"
    the nine names. *)
Definition is_localization_call (current : pyobj) : bool :=
  match obj_class current with
  | Call =>
      match assoc "func" (obj_attrs current) with
      | Some (VObj callee) =>
          match assoc "name" (obj_attrs callee) with
          | Some (VStr name) => existsb (str_eqb name) localization_call_names
          | _ => false
          end
      | _ => false
      end
  | _ => false
  end.

(** The ancestor scan as the specification words it, over exemption rules
    given as pairs of a node kind and a structural test: at each node below
    the root, stop with EXEMPT if the node is a localization call or if any
    rule of its kind has a test that returns true (a test that fails on an
    absent attribute does not match); otherwise advance; FLAGGED when the
    root is reached. *)
Fixpoint first_success_scan (rules : list rule) (literal : pyobj)
  (current : NodeNG) : Verdict :=
  match current with
  | Root _ => FLAGGED
  | Child o up =>
      if is_localization_call o || existsb (rule_matches o literal) rules
      then EXEMPT
      else first_success_scan rules literal up
  end.

(* ===================================================================== *)
(** ** Basic facts                                                        *)
(* ===================================================================== *)

Lemma attr_raise (o : pyobj) (a : string) (e : exn) :
  attr o a = Raise e -> e = AttributeError.
Proof.
  unfold attr. destruct (assoc a (obj_attrs o)); congruence.
Qed.

Lemma getattr_raise (v : value) (a : string) (e : exn) :
  getattr v a = Raise e -> e = AttributeError.
Proof.
  destruct v; simpl; try congruence. apply attr_raise.
Qed.

Lemma hasattr_getattr (v : value) (a : string) (x : value) :
  getattr v a = Ok x -> hasattr v a = true.
Proof. unfold hasattr. intros ->. reflexivity. Qed.

Lemma str_eqb_refl (s : pystr) : str_eqb s s = true.
Proof.
  induction s as [|c s IH]; simpl; [reflexivity|].
  now rewrite N.eqb_refl, IH.
Qed.

Lemma str_in_In (s : pystr) (names : list pystr) :
  In s names -> str_in (VStr s) names = true.
Proof.
  intros H. simpl. apply existsb_exists. exists s. split; [exact H|].
  apply str_eqb_refl.
Qed.

Lemma class_eqb_refl (c : pyclass) : class_eqb c c = true.
Proof. unfold class_eqb. destruct (pyclass_eq_dec c c); congruence. Qed.

Lemma class_eqb_eq (a b : pyclass) : class_eqb a b = true -> a = b.
Proof. unfold class_eqb. destruct (pyclass_eq_dec a b); congruence. Qed.

Lemma mapM_first_of (xs : list value) :
  forallb is_pair xs = true ->
  mapM (fun x => getitem x 0) xs = Ok (map first_of xs).
Proof.
  induction xs as [|x xs IH]; simpl; [reflexivity|].
  intros H. apply andb_prop in H. destruct H as [Hx Hxs].
  rewrite (IH Hxs).
  destruct x as [| | | | |ys|]; simpl in Hx; try discriminate.
  destruct ys as [|k [|v [|? ?]]]; try discriminate. reflexivity.
Qed.

(* --------------------------------------------------------------------- *)
(** *** The rule loop at one node                                         *)
(* --------------------------------------------------------------------- *)

Lemma run_whitelist_never_attribute_error (wl : list rule) (c n : pyobj) :
  run_whitelist wl c n <> Raise AttributeError.
Proof.
  induction wl as [|[cls f] wl IH]; simpl; [discriminate|].
  destruct (class_eqb (obj_class c) cls); [|exact IH].
  destruct (f c n) as [[|]|[| |]]; try exact IH; discriminate.
Qed.

Lemma run_whitelist_true_inv (wl : list rule) (c n : pyobj) :
  run_whitelist wl c n = Ok true ->
  exists cls f, In (cls, f) wl /\ class_eqb (obj_class c) cls = true
                /\ f c n = Ok true.
Proof.
  induction wl as [|[cls f] wl IH]; simpl; [discriminate|].
  destruct (class_eqb (obj_class c) cls) eqn:Hc.
  - destruct (f c n) as [[|]|[| |]] eqn:Hf; intros H; try discriminate;
      try (destruct (IH H) as (cls' & f' & Hin & Hcls & Hok);
           exists cls', f'; auto).
    exists cls, f. auto.
  - intros H. destruct (IH H) as (cls' & f' & Hin & Hcls & Hok).
    exists cls', f'. auto.
Qed.

Lemma run_whitelist_no_raise (wl : list rule) (c n : pyobj) :
  (forall cls f e, In (cls, f) wl -> class_eqb (obj_class c) cls = true ->
                   f c n = Raise e -> e = AttributeError) ->
  exists b, run_whitelist wl c n = Ok b.
Proof.
  induction wl as [|[cls f] wl IH]; simpl; intros H; [now exists false|].
  assert (IH' : exists b, run_whitelist wl c n = Ok b)
    by (apply IH; intros; eapply H; eauto).
  destruct (class_eqb (obj_class c) cls) eqn:Hc; [|exact IH'].
  destruct (f c n) as [[|]|e] eqn:Hf; [now exists true|exact IH'|].
  rewrite (H cls f e (or_introl eq_refl) Hc Hf). exact IH'.
Qed.

(** A first matching rule decides the loop when the rules before it do
    not leave it by another exception. *)
Lemma run_whitelist_app (pre post : list rule) (c n : pyobj) :
  run_whitelist pre c n = Ok false ->
  run_whitelist (pre ++ post) c n = run_whitelist post c n.
Proof.
  induction pre as [|[cls f] pre IH]; simpl; [reflexivity|].
  destruct (class_eqb (obj_class c) cls); [|exact IH].
  destruct (f c n) as [[|]|[| |]]; try exact IH; discriminate.
Qed.

(* --------------------------------------------------------------------- *)
(** *** The walk towards the root                                         *)
(* --------------------------------------------------------------------- *)

Lemma ancestor_loop_true (wl : list rule) (n : pyobj) (curr : NodeNG) :
  fst (ancestor_loop wl n true curr) = true.
Proof.
  induction curr as [o|o up IH]; simpl; [reflexivity|].
  destruct (in_gettext_call o); [reflexivity|].
  destruct (run_whitelist wl o n) as [[|]|e]; auto.
Qed.

Lemma ancestor_loop_hit (wl : list rule) (n d : pyobj) (curr : NodeNG) :
  In d (scan_path curr) ->
  (forall a, In a (scan_path curr) -> exists b, run_whitelist wl a n = Ok b) ->
  in_gettext_call d = true \/ run_whitelist wl d n = Ok true ->
  forall b, fst (ancestor_loop wl n b curr) = true.
Proof.
  induction curr as [o|o up IH]; simpl; intros Hin Hok Hd b; [contradiction|].
  destruct (in_gettext_call o) eqn:Hg; [reflexivity|].
  destruct (Hok o (or_introl eq_refl)) as [r Hr]. rewrite Hr.
  destruct r; [apply ancestor_loop_true|].
  destruct Hin as [<-|Hin].
  - destruct Hd; congruence.
  - apply IH; auto.
Qed.

Lemma ancestor_loop_miss (wl : list rule) (n : pyobj) (curr : NodeNG) :
  (forall a, In a (scan_path curr) ->
             in_gettext_call a = false /\ run_whitelist wl a n <> Ok true) ->
  fst (ancestor_loop wl n false curr) = false.
Proof.
  induction curr as [o|o up IH]; simpl; intros H; [reflexivity|].
  destruct (H o (or_introl eq_refl)) as [Hg Hw]. rewrite Hg.
  destruct (run_whitelist wl o n) as [[|]|e]; auto; congruence.
Qed.

(* --------------------------------------------------------------------- *)
(** *** On well-shaped nodes the rules raise nothing but AttributeError   *)
(* --------------------------------------------------------------------- *)

Ltac attr_case :=
  match goal with
  | |- context [attr ?o ?a] =>
      let H := fresh "Hattr" in
      destruct (attr o a) eqn:H;
      [|try (apply attr_raise in H; subst)]
  | |- context [getattr ?v ?a] =>
      let H := fresh "Hattr" in
      destruct (getattr v a) eqn:H;
      [|try (apply getattr_raise in H; subst)]
  end.

Ltac rule_cases :=
  unfold bind, and_then; simpl;
  repeat (attr_case; simpl);
  repeat match goal with
         | |- context [if ?b then _ else _] => destruct b; simpl
         end;
  try congruence.

Lemma index_rule_raise c n e : index_rule c n = Raise e -> e = AttributeError.
Proof. unfold index_rule. rule_cases. Qed.

Lemma delete_rule_raise c n e : delete_rule c n = Raise e -> e = AttributeError.
Proof. unfold delete_rule. rule_cases. Qed.

Lemma keyword_rule_raise c n e :
  keyword_rule c n = Raise e -> e = AttributeError.
Proof. unfold keyword_rule. rule_cases. Qed.

Lemma compare_left_rule_raise c n e :
  compare_left_rule c n = Raise e -> e = AttributeError.
Proof. unfold compare_left_rule. rule_cases. Qed.

Lemma queryset_rule_raise c n e :
  queryset_rule c n = Raise e -> e = AttributeError.
Proof. unfold queryset_rule. rule_cases. Qed.

Lemma logging_rule_raise c n e :
  logging_rule c n = Raise e -> e = AttributeError.
Proof. unfold logging_rule. rule_cases. Qed.

Lemma model_field_rule_raise all c n e :
  model_field_rule all c n = Raise e -> e = AttributeError.
Proof.
  unfold model_field_rule, bind, and_then.
  destruct (attr c "func") as [f|e0] eqn:Hf;
    [|intros H; inversion H; subst; eapply attr_raise; eauto].
  destruct (getattr f "attrname") as [an|e0] eqn:Han;
    [|intros H; inversion H; subst; eapply getattr_raise; eauto].
  destruct (str_in an all); [|discriminate].
  destruct (hasattr (VObj c) "args"); [|discriminate].
  destruct (attr c "args") as [a|e0] eqn:Ha;
    [|intros H; inversion H; subst; eapply attr_raise; eauto].
  destruct a as [| | | |xs| |]; simpl; try discriminate.
  destruct xs as [|x xs]; simpl; discriminate.
Qed.

Lemma dict_rule_shaped c n :
  obj_class c = Dict -> astroid_fields c = true ->
  exists xs, attr c "items" = Ok (VList xs) /\ forallb is_pair xs = true
             /\ dict_rule c n = Ok (node_in n (map first_of xs)).
Proof.
  unfold astroid_fields. intros ->.
  destruct (attr c "items") as [[| | | |xs| |]|] eqn:Hi; try discriminate.
  intros Hp. exists xs. repeat split; auto.
  unfold dict_rule, bind. rewrite Hi. simpl.
  now rewrite (mapM_first_of xs Hp).
Qed.

Lemma compare_ops_rule_shaped c n :
  obj_class c = Compare -> astroid_fields c = true ->
  exists b, compare_ops_rule c n = Ok b.
Proof.
  unfold astroid_fields. intros ->.
  destruct (attr c "ops") as [[| | | |[|x xs]| |]|] eqn:Hi; try discriminate.
  intros Hp. simpl in Hp. apply andb_prop in Hp. destruct Hp as [Hx _].
  destruct x as [| | | | |ys|]; simpl in Hx; try discriminate.
  destruct ys as [|k [|v [|? ?]]]; try discriminate.
  unfold compare_ops_rule, bind. rewrite Hi. simpl. eauto.
Qed.

Lemma assign_rule_shaped c n e :
  obj_class c = Assign -> astroid_fields c = true ->
  assign_rule c n = Raise e -> e = AttributeError.
Proof.
  unfold astroid_fields. intros ->.
  destruct (attr c "targets") as [[| | | |xs| |]|] eqn:Hi; try discriminate.
  intros _. unfold assign_rule, bind, and_then. rewrite Hi. simpl.
  destruct xs as [|t [|? ?]]; simpl; try discriminate.
  destruct (hasattr t "name"); [|discriminate].
  destruct (getattr t "name") eqn:Hn; [discriminate|].
  intros H. inversion H; subst. eapply getattr_raise; eauto.
Qed.

Lemma whitelist_no_raise (all : list pystr) (c n : pyobj) :
  astroid_fields c = true ->
  exists b, run_whitelist (whitelist all) c n = Ok b.
Proof.
  intros Hs. apply run_whitelist_no_raise.
  intros cls f e Hin Hc Hf. apply class_eqb_eq in Hc.
  unfold whitelist in Hin. simpl in Hin.
  repeat (destruct Hin as [Hin|Hin];
          [injection Hin as <- <-|]); try contradiction.
  - destruct (dict_rule_shaped c n Hc Hs) as (xs & _ & _ & Hd). congruence.
  - eapply index_rule_raise; eauto.
  - eapply assign_rule_shaped; eauto.
  - eapply delete_rule_raise; eauto.
  - eapply keyword_rule_raise; eauto.
  - destruct (compare_ops_rule_shaped c n Hc Hs) as [b Hb]. congruence.
  - eapply compare_left_rule_raise; eauto.
  - eapply queryset_rule_raise; eauto.
  - eapply logging_rule_raise; eauto.
  - eapply model_field_rule_raise; eauto.
Qed.

Lemma well_shaped_no_raise (all : list pystr) (n : pyobj) (curr : NodeNG) :
  well_shaped curr ->
  forall a, In a (scan_path curr) ->
            exists b, run_whitelist (whitelist all) a n = Ok b.
Proof.
  intros Hf a Ha. apply whitelist_no_raise.
  unfold well_shaped in Hf. rewrite forallb_forall in Hf. auto.
Qed.

Lemma run_whitelist_existsb (wl : list rule) (c n : pyobj) :
  (forall cls f e, In (cls, f) wl -> class_eqb (obj_class c) cls = true ->
                   f c n = Raise e -> e = AttributeError) ->
  run_whitelist wl c n = Ok (existsb (rule_matches c n) wl).
Proof.
  induction wl as [|[cls f] wl IH]; simpl; intros H; [reflexivity|].
  assert (IH' : run_whitelist wl c n = Ok (existsb (rule_matches c n) wl))
    by (apply IH; intros; eapply H; eauto).
  unfold rule_matches at 1. simpl.
  destruct (class_eqb (obj_class c) cls) eqn:Hc; [|exact IH'].
  destruct (f c n) as [[|]|e] eqn:Hf; [reflexivity|exact IH'|].
  rewrite (H cls f e (or_introl eq_refl) Hc Hf). exact IH'.
Qed.

Lemma whitelist_only_attribute_error (all : list pystr) (c n : pyobj) :
  astroid_fields c = true ->
  forall cls f e, In (cls, f) (whitelist all) ->
                  class_eqb (obj_class c) cls = true ->
                  f c n = Raise e -> e = AttributeError.
Proof.
  intros Hs cls f e Hin Hc Hf. apply class_eqb_eq in Hc.
  unfold whitelist in Hin. simpl in Hin.
  repeat (destruct Hin as [Hin|Hin]; [injection Hin as <- <-|]);
    try contradiction.
  - destruct (dict_rule_shaped c n Hc Hs) as (xs & _ & _ & Hd). congruence.
  - eapply index_rule_raise; eauto.
  - eapply assign_rule_shaped; eauto.
  - eapply delete_rule_raise; eauto.
  - eapply keyword_rule_raise; eauto.
  - destruct (compare_ops_rule_shaped c n Hc Hs) as [b Hb]. congruence.
  - eapply compare_left_rule_raise; eauto.
  - eapply queryset_rule_raise; eauto.
  - eapply logging_rule_raise; eauto.
  - eapply model_field_rule_raise; eauto.
Qed.

Lemma ancestor_loop_no_abort (wl : list rule) (n : pyobj) (curr : NodeNG) :
  (forall a, In a (scan_path curr) -> exists b, run_whitelist wl a n = Ok b) ->
  forall string_ok, snd (ancestor_loop wl n string_ok curr) = None.
Proof.
  induction curr as [o|o up IH]; simpl; intros Hok b; [reflexivity|].
  destruct (in_gettext_call o); [reflexivity|].
  destruct (Hok o (or_introl eq_refl)) as [r Hr]. rewrite Hr.
  destruct r; apply IH; auto.
Qed.

Lemma in_gettext_call_localization (o : pyobj) :
  in_gettext_call o = is_localization_call o.
Proof.
  unfold in_gettext_call, is_localization_call, attr.
  destruct (obj_class o); try reflexivity. cbn [class_eqb].
  change (if pyclass_eq_dec Call Call then true else false) with true.
  cbv iota.
  destruct (assoc "func" (obj_attrs o)) as [[| | | | | |callee]|];
    try reflexivity.
  unfold hasattr, getattr, attr.
  destruct (assoc "name" (obj_attrs callee)) as [[| | |name| | |]|];
    reflexivity.
Qed.

(** In a tree rooted at the module every ancestor of another class is one
    of the nodes the loop examines. *)
Lemma ancestor_below_root (curr : NodeNG) (d : pyobj) :
  obj_class (root curr) = Module -> In d (ancestors curr) ->
  obj_class d <> Module -> In d (scan_path curr).
Proof.
  induction curr as [o|o up IH]; simpl; intros Hr Hin Hd.
  - destruct Hin as [<-|[]]. contradiction.
  - destruct Hin as [<-|Hin]; auto.
Qed.

(* --------------------------------------------------------------------- *)
(** *** From the walk to the visit                                        *)
(* --------------------------------------------------------------------- *)

Lemma run_whitelist_complete (wl : list rule) (c n : pyobj) cls f b :
  In (cls, f) wl -> class_eqb (obj_class c) cls = true -> f c n = Ok true ->
  run_whitelist wl c n = Ok b -> b = true.
Proof.
  induction wl as [|[cls' f'] wl IH]; simpl; [contradiction|].
  intros [Heq|Hin] Hc Hf.
  - injection Heq as -> ->. rewrite Hc, Hf. congruence.
  - destruct (class_eqb (obj_class c) cls'); [|now apply IH].
    destruct (f' c n) as [[|]|[| |]]; try (now apply IH); congruence.
Qed.

Lemma ancestor_loop_ext (wl wl' : list rule) (n : pyobj) (curr : NodeNG) :
  (forall a, In a (scan_path curr) ->
             run_whitelist wl a n = run_whitelist wl' a n) ->
  forall b, ancestor_loop wl n b curr = ancestor_loop wl' n b curr.
Proof.
  induction curr as [o|o up IH]; simpl; intros H b; [reflexivity|].
  rewrite (H o (or_introl eq_refl)).
  destruct (in_gettext_call o); [reflexivity|].
  destruct (run_whitelist wl' o n) as [[|]|e]; auto.
Qed.

Lemma visit_const_scanned float_ok wl node text :
  attr (self node) "value" = Ok (VStr text) ->
  search_cyrillic text = true ->
  existsb (fun func => func text) (whitelisted_strings float_ok) = false ->
  visit_const_with float_ok wl node
  = if fst (ancestor_loop wl (self node) false node) then Ok None
    else Ok (Some (add_message "W0001" (obj_id (self node)) (VStr text))).
Proof.
  intros Hv Hc Hw. unfold visit_const_with, bind. rewrite Hv.
  cbn [_is_cyrillic_str]. rewrite Hc. cbn [negb]. rewrite Hw. cbn [negb].
  destruct (fst (ancestor_loop wl (self node) false node)); reflexivity.
Qed.

Lemma classify_exempt float_ok all node :
  visit_const float_ok all node = Ok None ->
  classify float_ok all node = Ok EXEMPT.
Proof. unfold classify, bind. now intros ->. Qed.

Lemma exempt_at_node float_ok all node text d :
  well_shaped node ->
  attr (self node) "value" = Ok (VStr text) ->
  search_cyrillic text = true ->
  existsb (fun func => func text) (whitelisted_strings float_ok) = false ->
  In d (scan_path node) ->
  in_gettext_call d = true
  \/ run_whitelist (whitelist all) d (self node) = Ok true ->
  visit_const float_ok all node = Ok None.
Proof.
  intros Hs Hv Hc Hw Hin Hd. unfold visit_const.
  rewrite (visit_const_scanned _ _ _ _ Hv Hc Hw).
  rewrite (ancestor_loop_hit (whitelist all) (self node) d node Hin); auto.
  now apply well_shaped_no_raise.
Qed.

Lemma exempt_by_rule float_ok all node text d cls f :
  astroid_tree node ->
  attr (self node) "value" = Ok (VStr text) ->
  search_cyrillic text = true ->
  existsb (fun func => func text) (whitelisted_strings float_ok) = false ->
  In d (ancestors node) ->
  obj_class d = cls -> cls <> Module ->
  In (cls, f) (whitelist all) ->
  f d (self node) = Ok true ->
  visit_const float_ok all node = Ok None.
Proof.
  intros [Hroot Hs] Hv Hc Hw Hin Hcls Hm Hrule Hf.
  assert (Hpath : In d (scan_path node))
    by (apply ancestor_below_root; congruence).
  eapply exempt_at_node; eauto. right.
  destruct (well_shaped_no_raise all (self node) node Hs d Hpath) as [b Hb].
  rewrite Hb. f_equal.
  eapply run_whitelist_complete; eauto.
  subst cls. apply class_eqb_refl.
Qed.

Lemma search_cyrillic_spec (s : pystr) :
  search_cyrillic s = true <-> exists c, In c s /\ 1040 <= c <= 1103.
Proof.
  unfold search_cyrillic, between, cyr_a, cyr_ya, cyr_A, cyr_YA.
  rewrite existsb_exists. split; intros [c [Hin Hc]]; exists c; split; auto.
  - rewrite orb_true_iff, !andb_true_iff, !N.leb_le in Hc. lia.
  - rewrite orb_true_iff, !andb_true_iff, !N.leb_le. lia.
Qed.

Lemma run_whitelist_swallow (wl wl' : list rule) (c n : pyobj) :
  Forall2 (same_rule_modulo_attribute_error n) wl wl' ->
  run_whitelist wl c n = run_whitelist wl' c n.
Proof.
  induction 1 as [|[cls f] [cls' f'] wl wl' [Hcls Hf] _ IH]; [reflexivity|].
  simpl in Hcls, Hf. subst cls'. simpl. rewrite IH.
  destruct (class_eqb (obj_class c) cls); [|reflexivity].
  specialize (Hf c). unfold swallow in Hf.
  destruct (f c n) as [[|]|[| |]], (f' c n) as [[|]|[| |]];
    try reflexivity; discriminate.
Qed.

Lemma ancestor_loop_error (wl : list rule) (n : pyobj) (curr : NodeNG) b :
  snd (ancestor_loop wl n b curr) <> Some AttributeError.
Proof.
  revert b. induction curr as [o|o up IH]; simpl; intros b; [discriminate|].
  destruct (in_gettext_call o); [discriminate|].
  destruct (run_whitelist wl o n) as [[|]|e] eqn:Hr; auto.
  simpl. intros H. injection H as ->.
  exact (run_whitelist_never_attribute_error wl o n Hr).
Qed.

(* ===================================================================== *)
(** ** The properties of the specification                                *)
(* ===================================================================== *)

(** C1. A Cyrillic literal that no content rule whitelists, and for which
    neither the gettext test nor any applicable whitelist rule succeeds at
    any node the walk examines (a rule that raises does not succeed, so an
    aborted walk is covered), is reported: [visit_const] emits W0001 on the
    literal with the literal's own text as argument, i.e. the verdict is
    FLAGGED. *)
Theorem unmatched_literal_is_flagged float_ok all node text :
  attr (self node) "value" = Ok (VStr text) ->
  search_cyrillic text = true ->
  existsb (fun func => func text) (whitelisted_strings float_ok) = false ->
  (forall a, In a (scan_path node) ->
     in_gettext_call a = false /\
     forall cls f, In (cls, f) (whitelist all) ->
       class_eqb (obj_class a) cls = true -> f a (self node) <> Ok true) ->
  visit_const float_ok all node
  = Ok (Some (add_message "W0001" (obj_id (self node)) (VStr text)))
  /\ classify float_ok all node = Ok FLAGGED.
Proof.
  intros Hv Hc Hw Hno.
  assert (Hvisit : visit_const float_ok all node
            = Ok (Some (add_message "W0001" (obj_id (self node)) (VStr text)))).
  { unfold visit_const. rewrite (visit_const_scanned _ _ _ _ Hv Hc Hw).
    rewrite ancestor_loop_miss; [reflexivity|].
    intros a Ha. destruct (Hno a Ha) as [Hg Hrules]. split; [exact Hg|].
    intros Hrun. apply run_whitelist_true_inv in Hrun.
    destruct Hrun as (cls & f & Hin & Hcls & Hok).
    exact (Hrules cls f Hin Hcls Hok). }
  split; [exact Hvisit|]. unfold classify. now rewrite Hvisit.
Qed.

Lemma unmatched_literal_is_flagged_witness :
  visit_const ascii_float Scenarios.fields Scenarios.bare_tree
  = Ok (Some (add_message "W0001" 1 (VStr Scenarios.zakaz)))
  /\ classify ascii_float Scenarios.fields Scenarios.bare_tree = Ok FLAGGED.
Proof.
  apply (unmatched_literal_is_flagged ascii_float Scenarios.fields
           Scenarios.bare_tree Scenarios.zakaz); try reflexivity.
  intros a Ha. simpl in Ha.
  destruct Ha as [<-|[<-|[]]]; (split; [reflexivity|]);
    intros cls f Hin Hc; apply class_eqb_eq in Hc; simpl in Hc; subst cls;
    simpl in Hin;
    repeat (destruct Hin as [Hin|Hin]; [discriminate Hin|]);
    contradiction.
Defined.

(** C2. If some node examined by the walk (an ancestor below the root) is a
    call whose callee has a [name] among the nine gettext names, a Cyrillic
    literal that the content rules do not whitelist is not reported (EXEMPT),
    in every well-shaped tree. *)
Theorem gettext_call_ancestor_exempts float_ok all node text d func name :
  well_shaped node ->
  attr (self node) "value" = Ok (VStr text) ->
  search_cyrillic text = true ->
  existsb (fun func => func text) (whitelisted_strings float_ok) = false ->
  In d (scan_path node) ->
  obj_class d = Call ->
  attr d "func" = Ok func ->
  getattr func "name" = Ok (VStr name) ->
  In name gettext_names ->
  visit_const float_ok all node = Ok None
  /\ classify float_ok all node = Ok EXEMPT.
Proof.
  intros Hs Hv Hc Hw Hin Hcls Hfunc Hname Hmem.
  assert (Hvisit : visit_const float_ok all node = Ok None).
  { eapply exempt_at_node; eauto. left.
    unfold in_gettext_call. rewrite Hcls, Hfunc.
    rewrite (hasattr_getattr _ _ _ Hname), Hname.
    now apply str_in_In. }
  split; [exact Hvisit|now apply classify_exempt].
Qed.

Lemma gettext_call_ancestor_exempts_witness :
  visit_const ascii_float Scenarios.fields Scenarios.gettext_tree = Ok None
  /\ classify ascii_float Scenarios.fields Scenarios.gettext_tree = Ok EXEMPT.
Proof.
  apply (gettext_call_ancestor_exempts ascii_float Scenarios.fields
           Scenarios.gettext_tree Scenarios.zakaz
           (Astroid.mkCall 2 (Astroid.mkName 3 (py "_"))
              [Scenarios.lit Scenarios.zakaz] [])
           (VObj (Astroid.mkName 3 (py "_"))) (py "_"));
    try reflexivity.
  - simpl. right. left. reflexivity.
  - simpl. left. reflexivity.
Defined.

(** C3. A Cyrillic literal whose text is empty, or is accepted by [float],
    or starts with [^] and ends with [$], or contains [[^], [а-я] or [А-Я],
    or starts or ends with [/], or has a line (split at newlines) that after
    [strip] starts with [--], is never reported, whatever its ancestors and
    whatever the structural rules: the visit returns before the walk. *)
Theorem content_whitelist_exempts float_ok node text :
  attr (self node) "value" = Ok (VStr text) ->
  search_cyrillic text = true ->
  (text = []
   \/ is_number float_ok text = true
   \/ (startswith text (py "^") = true /\ endswith text (py "$") = true)
   \/ contains text (py "[^") = true
   \/ contains text [cyr_a; hyphen; cyr_ya] = true
   \/ contains text [cyr_A; hyphen; cyr_YA] = true
   \/ startswith text (py "/") = true
   \/ endswith text (py "/") = true
   \/ (exists line, In line (split_char newline text)
                    /\ startswith (strip line) (py "--") = true)) ->
  (forall wl, visit_const_with float_ok wl node = Ok None)
  /\ forall all, classify float_ok all node = Ok EXEMPT.
Proof.
  intros Hv Hc Hrule.
  assert (Hw : existsb (fun func => func text) (whitelisted_strings float_ok)
               = true).
  { unfold whitelisted_strings. cbn [existsb].
    destruct Hrule as [->|[H|[[H1 H2]|[H|[H|[H|[H|[H|[line [Hl H]]]]]]]]]].
    - reflexivity.
    - rewrite H. now rewrite orb_true_r.
    - rewrite H1, H2. now rewrite !orb_true_r.
    - rewrite H. now rewrite !orb_true_r.
    - rewrite H. now rewrite !orb_true_r.
    - rewrite H. now rewrite !orb_true_r.
    - rewrite H. now rewrite !orb_true_r.
    - rewrite H. now rewrite !orb_true_r.
    - assert (Hsql : _is_comment_in_sql text = true).
      { unfold _is_comment_in_sql. apply existsb_exists.
        exists (strip line). split; [now apply in_map|exact H]. }
      rewrite Hsql. now rewrite !orb_true_r. }
  assert (Hvisit : forall wl, visit_const_with float_ok wl node = Ok None).
  { intros wl. unfold visit_const_with, bind. rewrite Hv.
    cbn [_is_cyrillic_str]. rewrite Hc. cbn [negb]. now rewrite Hw. }
  split; [exact Hvisit|].
  intros all. apply classify_exempt. apply Hvisit.
Qed.

Lemma content_whitelist_exempts_witness :
  (forall wl, visit_const_with ascii_float wl regex_tree = Ok None)
  /\ forall all, classify ascii_float all regex_tree = Ok EXEMPT.
Proof.
  apply (content_whitelist_exempts ascii_float regex_tree regex_text);
    try reflexivity.
  right. right. left. split; reflexivity.
Defined.

(** C4. A constant whose value is not a [str] holding a letter of
    [[а-яА-Я]] (U+0410..U+044F) -- any other type, or a string of other
    characters -- is left alone: no content rule and no walk can change the
    outcome, and nothing is reported. *)
Theorem non_cyrillic_constant_is_skipped float_ok node v :
  attr (self node) "value" = Ok v ->
  (forall s, v = VStr s -> forall c, In c s -> ~ (1040 <= c <= 1103)) ->
  _is_cyrillic_str v = false
  /\ (forall wl, visit_const_with float_ok wl node = Ok None)
  /\ forall all, classify float_ok all node = Ok EXEMPT.
Proof.
  intros Hv Hno.
  assert (Hgate : _is_cyrillic_str v = false).
  { destruct v as [| | |s| | |]; try reflexivity. simpl.
    destruct (search_cyrillic s) eqn:Hs; [|reflexivity].
    apply search_cyrillic_spec in Hs. destruct Hs as [c [Hin Hc]].
    exfalso. exact (Hno s eq_refl c Hin Hc). }
  assert (Hvisit : forall wl, visit_const_with float_ok wl node = Ok None).
  { intros wl. unfold visit_const_with, bind. rewrite Hv. now rewrite Hgate. }
  repeat split; auto.
  intros all. apply classify_exempt. apply Hvisit.
Qed.

Lemma non_cyrillic_constant_is_skipped_witness :
  _is_cyrillic_str (VStr (py "order")) = false
  /\ (forall wl, visit_const_with ascii_float wl latin_tree = Ok None)
  /\ forall all, classify ascii_float all latin_tree = Ok EXEMPT.
Proof.
  apply (non_cyrillic_constant_is_skipped ascii_float latin_tree
           (VStr (py "order"))).
  - reflexivity.
  - intros s Hs c Hin. injection Hs as <-. simpl in Hin.
    repeat (destruct Hin as [<-|Hin]; [lia|]). contradiction.
Defined.

(** C5. In an astroid tree, a Cyrillic literal not whitelisted by content
    that is (as a node) one of the keys of a dictionary among its ancestors
    is not reported.  When it is a key of none of the dictionaries above it
    (for instance, it is only a value), the dictionary rule answers [False]
    there and gives no exemption: the visit is the one of the remaining
    rules, the literal is reported when neither the gettext test nor one of
    the remaining rules succeeds on the path, and it is not reported when
    one of them does. *)
Theorem dict_key_exempt_value_not float_ok all node text :
  astroid_tree node ->
  attr (self node) "value" = Ok (VStr text) ->
  search_cyrillic text = true ->
  existsb (fun func => func text) (whitelisted_strings float_ok) = false ->
  (forall d items,
      In d (ancestors node) -> obj_class d = Dict ->
      attr d "items" = Ok (VList items) ->
      node_in (self node) (map first_of items) = true ->
      visit_const float_ok all node = Ok None
      /\ classify float_ok all node = Ok EXEMPT)
  /\ ((forall d items,
         In d (ancestors node) -> obj_class d = Dict ->
         attr d "items" = Ok (VList items) ->
         node_in (self node) (map first_of items) = false) ->
      (forall d, In d (scan_path node) -> obj_class d = Dict ->
                 dict_rule d (self node) = Ok false)
      /\ visit_const float_ok all node
         = visit_const_with float_ok (tl (whitelist all)) node
      /\ ((forall a, In a (scan_path node) ->
              in_gettext_call a = false
              /\ forall cls f, In (cls, f) (tl (whitelist all)) ->
                   class_eqb (obj_class a) cls = true ->
                   f a (self node) <> Ok true) ->
          visit_const float_ok all node
          = Ok (Some (add_message "W0001" (obj_id (self node)) (VStr text)))
          /\ classify float_ok all node = Ok FLAGGED)
      /\ ((exists a, In a (scan_path node)
                     /\ (in_gettext_call a = true
                         \/ exists cls f,
                              In (cls, f) (tl (whitelist all))
                              /\ class_eqb (obj_class a) cls = true
                              /\ f a (self node) = Ok true)) ->
          visit_const float_ok all node = Ok None
          /\ classify float_ok all node = Ok EXEMPT)).
Proof.
  intros Htree Hv Hc Hw. split.
  - intros d items Hin Hcls Hitems Hkey.
    assert (Hvisit : visit_const float_ok all node = Ok None).
    { eapply exempt_by_rule with (d := d) (cls := Dict) (f := dict_rule);
        eauto.
      + discriminate.
      + simpl. auto.
      + assert (Hpath : In d (scan_path node)).
        { destruct Htree as [Hroot _].
          apply ancestor_below_root; congruence. }
        destruct Htree as [_ Hs]. unfold well_shaped in Hs.
        rewrite forallb_forall in Hs.
        destruct (dict_rule_shaped d (self node) Hcls (Hs d Hpath))
          as (xs & Hxs & _ & Hrule).
        rewrite Hrule. congruence. }
    split; [exact Hvisit|now apply classify_exempt].
  - intros Hnokey.
    assert (Hrule : forall d, In d (scan_path node) -> obj_class d = Dict ->
                              dict_rule d (self node) = Ok false).
    { intros d Hpath Hcls.
      destruct Htree as [_ Hs]. unfold well_shaped in Hs.
      rewrite forallb_forall in Hs.
      destruct (dict_rule_shaped d (self node) Hcls (Hs d Hpath))
        as (xs & Hxs & _ & Hr).
      rewrite Hr. f_equal. apply (Hnokey d xs); auto.
      clear - Hpath. induction node as [o|o up IH]; simpl in *;
        [contradiction|]. destruct Hpath; auto. }
    split; [exact Hrule|]. split; [|split].
    + unfold visit_const, visit_const_with. f_equal.
      rewrite (ancestor_loop_ext (whitelist all) (tl (whitelist all)));
        [reflexivity|].
      intros a Ha. unfold whitelist at 1. cbn [run_whitelist tl].
      destruct (class_eqb (obj_class a) Dict) eqn:Hcls; [|reflexivity].
      apply class_eqb_eq in Hcls. now rewrite (Hrule a Ha Hcls).
    + intros Hno.
      assert (Hvisit : visit_const float_ok all node
                = Ok (Some (add_message "W0001" (obj_id (self node))
                              (VStr text)))).
      { unfold visit_const. rewrite (visit_const_scanned _ _ _ _ Hv Hc Hw).
        rewrite ancestor_loop_miss; [reflexivity|].
        intros a Ha. destruct (Hno a Ha) as [Hg Hrules].
        split; [exact Hg|]. intros Hrun.
        apply run_whitelist_true_inv in Hrun.
        destruct Hrun as (cls & f & Hin & Hcls & Hok).
        unfold whitelist in Hin. destruct Hin as [Heq|Hin].
        - injection Heq as <- <-. apply class_eqb_eq in Hcls.
          rewrite (Hrule a Ha Hcls) in Hok. discriminate.
        - exact (Hrules cls f Hin Hcls Hok). }
      split; [exact Hvisit|]. unfold classify. now rewrite Hvisit.
    + intros (a & Ha & Hsucc).
      assert (Hvisit : visit_const float_ok all node = Ok None).
      { destruct Htree as [_ Hs].
        apply (exempt_at_node float_ok all node text a Hs Hv Hc Hw Ha).
        destruct Hsucc as [Hg|(cls & f & Hin & Hcls & Hok)]; [now left|].
        right.
        destruct (well_shaped_no_raise all (self node) node Hs a Ha)
          as [b Hb].
        rewrite Hb. f_equal.
        apply (run_whitelist_complete (whitelist all) a (self node) cls f);
          auto.
        unfold whitelist. right. exact Hin. }
      split; [exact Hvisit|now apply classify_exempt].
Qed.

Lemma dict_key_exempt_value_not_witness :
  classify ascii_float Scenarios.fields dict_key_tree = Ok EXEMPT
  /\ visit_const ascii_float Scenarios.fields Scenarios.dict_value_tree
     = visit_const_with ascii_float (tl (whitelist Scenarios.fields))
         Scenarios.dict_value_tree
  /\ classify ascii_float Scenarios.fields Scenarios.dict_value_tree
     = Ok FLAGGED.
Proof.
  split.
  - refine (proj2 (proj1 (dict_key_exempt_value_not ascii_float
             Scenarios.fields dict_key_tree Scenarios.tovar _ _ _ _)
             (Astroid.mkDict 2
                [(Scenarios.lit Scenarios.tovar, Astroid.mkConst 3 (VInt 1))])
             _ _ _ _ _));
      try reflexivity.
    + split; reflexivity.
    + simpl. right. left. reflexivity.
  - assert (Hvalue := proj2 (dict_key_exempt_value_not ascii_float
              Scenarios.fields Scenarios.dict_value_tree Scenarios.tovar
              (conj eq_refl eq_refl) eq_refl eq_refl eq_refl)).
    assert (Hnokey : forall d items,
              In d (ancestors Scenarios.dict_value_tree) ->
              obj_class d = Dict -> attr d "items" = Ok (VList items) ->
              node_in (self Scenarios.dict_value_tree) (map first_of items)
              = false).
    { intros d items Hin Hcls Hitems. simpl in Hin.
      destruct Hin as [<-|[<-|[<-|[<-|[]]]]]; try discriminate Hcls.
      injection Hitems as <-. reflexivity. }
    destruct (Hvalue Hnokey) as (_ & Heq & Hflag & _).
    split; [exact Heq|]. apply Hflag.
    intros a Ha. simpl in Ha.
    destruct Ha as [<-|[<-|[<-|[]]]]; (split; [reflexivity|]);
      intros cls f Hin Hc; apply class_eqb_eq in Hc; simpl in Hc; subst cls;
      simpl in Hin;
      repeat (destruct Hin as [Hin|Hin]; [discriminate Hin|]);
      contradiction.
Defined.

(** C6. In an astroid tree, a Cyrillic literal not whitelisted by content
    that is (as a node) the first positional argument of a call among its
    ancestors whose callee is an attribute access with a name in
    [django.db.models.__all__] is not reported; when the first argument of
    such a call is another node, the model-field rule answers [False] for
    the literal there, whatever the later arguments are. *)
Theorem model_field_first_argument float_ok all node text
  d func attrname a0 rest :
  astroid_tree node ->
  attr (self node) "value" = Ok (VStr text) ->
  search_cyrillic text = true ->
  existsb (fun func => func text) (whitelisted_strings float_ok) = false ->
  In d (ancestors node) ->
  obj_class d = Call ->
  attr d "func" = Ok func ->
  isinstance func Attribute = true ->
  getattr func "attrname" = Ok (VStr attrname) ->
  In attrname all ->
  attr d "args" = Ok (VList (a0 :: rest)) ->
  (eq_node a0 (self node) = true ->
   visit_const float_ok all node = Ok None
   /\ classify float_ok all node = Ok EXEMPT)
  /\ (eq_node a0 (self node) = false ->
      model_field_rule all d (self node) = Ok false).
Proof.
  intros Htree Hv Hc Hw Hin Hcls Hfunc Hattr Hname Hmem Hargs.
  assert (Hrule : model_field_rule all d (self node)
                  = Ok (eq_node a0 (self node))).
  { unfold model_field_rule, bind, and_then. rewrite Hfunc, Hname.
    rewrite (str_in_In _ _ Hmem).
    assert (Hh : hasattr (VObj d) "args" = true)
      by (apply hasattr_getattr with (x := VList (a0 :: rest)); exact Hargs).
    rewrite Hh, Hargs. reflexivity. }
  split; intros Ha0; rewrite Ha0 in Hrule; [|exact Hrule].
  assert (Hvisit : visit_const float_ok all node = Ok None).
  { eapply exempt_by_rule
      with (d := d) (cls := Call) (f := model_field_rule all); eauto.
    - discriminate.
    - simpl. tauto. }
  split; [exact Hvisit|now apply classify_exempt].
Qed.

Lemma model_field_first_argument_witness :
  classify ascii_float Scenarios.fields Scenarios.qualified_field_tree
  = Ok EXEMPT
  /\ model_field_rule Scenarios.fields second_argument_call
       (Scenarios.lit Scenarios.zakaz) = Ok false.
Proof.
  split.
  - refine (proj2 (proj1 (model_field_first_argument ascii_float
             Scenarios.fields Scenarios.qualified_field_tree Scenarios.zakaz
             (Scenarios.field_call
                (Astroid.mkAttribute 3 (py "CharField")
                   (Astroid.mkName 4 (py "models"))))
             (VObj (Astroid.mkAttribute 3 (py "CharField")
                      (Astroid.mkName 4 (py "models"))))
             (py "CharField") (VObj (Scenarios.lit Scenarios.zakaz)) []
             _ _ _ _ _ _ _ _ _ _ _) _)); try reflexivity.
    + split; reflexivity.
    + simpl. right. left. reflexivity.
    + simpl. left. reflexivity.
  - refine (proj2 (model_field_first_argument ascii_float
             Scenarios.fields second_argument_tree Scenarios.zakaz
             second_argument_call
             (VObj (Astroid.mkAttribute 3 (py "CharField")
                      (Astroid.mkName 4 (py "models"))))
             (py "CharField") (VObj (Astroid.mkConst 6 (VStr (py "x"))))
             [VObj (Scenarios.lit Scenarios.zakaz)]
             _ _ _ _ _ _ _ _ _ _ _) _); try reflexivity.
    + split; reflexivity.
    + simpl. right. left. reflexivity.
    + simpl. left. reflexivity.
Defined.

(** C7. An [AttributeError] raised by a rule's test is the same as the test
    answering [False]: two whitelists whose rules agree once the inner
    handler is applied give the same walk, node after node, and the same
    visit; and the outer handler never sees an [AttributeError] of a rule,
    so none reaches the caller. *)
Theorem attribute_error_is_no_match float_ok wl wl' node :
  Forall2 (same_rule_modulo_attribute_error (self node)) wl wl' ->
  (forall curr_node, run_whitelist wl curr_node (self node)
                     = run_whitelist wl' curr_node (self node))
  /\ (forall string_ok curr_node,
        ancestor_loop wl (self node) string_ok curr_node
        = ancestor_loop wl' (self node) string_ok curr_node)
  /\ visit_const_with float_ok wl node = visit_const_with float_ok wl' node
  /\ (forall string_ok curr_node,
        snd (ancestor_loop wl (self node) string_ok curr_node)
        <> Some AttributeError).
Proof.
  intros Hsame.
  assert (Hrun : forall c, run_whitelist wl c (self node)
                           = run_whitelist wl' c (self node))
    by (intros c; now apply run_whitelist_swallow).
  assert (Hloop : forall b curr, ancestor_loop wl (self node) b curr
                                 = ancestor_loop wl' (self node) b curr)
    by (intros b curr; apply ancestor_loop_ext; intros; apply Hrun).
  repeat split; auto.
  - unfold visit_const_with. now rewrite Hloop.
  - intros b curr. apply ancestor_loop_error.
Qed.

Lemma attribute_error_is_no_match_witness :
  visit_const_with ascii_float (whitelist Scenarios.fields)
    Scenarios.unqualified_field_tree
  = visit_const_with ascii_float (map swallowed (whitelist Scenarios.fields))
      Scenarios.unqualified_field_tree
  /\ model_field_rule Scenarios.fields
       (Scenarios.field_call (Astroid.mkName 3 (py "CharField")))
       (Scenarios.lit Scenarios.zakaz) = Raise AttributeError.
Proof.
  split; [|reflexivity].
  refine (proj1 (proj2 (proj2 (attribute_error_is_no_match ascii_float
            (whitelist Scenarios.fields)
            (map swallowed (whitelist Scenarios.fields))
            Scenarios.unqualified_field_tree _)))).
  unfold whitelist. cbn [map].
  repeat (apply Forall2_cons;
          [split; [reflexivity|];
           intros c; unfold swallowed, swallow; cbn [snd];
           match goal with
           | |- context [match ?r with _ => _ end] =>
               destruct r as [[|]|[| |]]; reflexivity
           end|]).
  apply Forall2_nil.
Defined.

(** C8. On every walk that no rule leaves by an exception other than
    [AttributeError], the loop of the source, which notes a whitelist match
    in [string_ok] and keeps walking to the root, gives the verdict of the
    scan of the specification, which stops with EXEMPT at the first node
    that is a localization call or for which some rule of its kind answers
    true; and the outer handler is not entered. *)
Theorem flag_loop_refines_first_success wl literal curr_node :
  (forall a cls f e,
      In a (scan_path curr_node) -> In (cls, f) wl ->
      class_eqb (obj_class a) cls = true ->
      f a literal = Raise e -> e = AttributeError) ->
  scan_verdict (fst (ancestor_loop wl literal false curr_node))
  = first_success_scan wl literal curr_node
  /\ snd (ancestor_loop wl literal false curr_node) = None.
Proof.
  intros Hrules.
  assert (Hrun : forall a, In a (scan_path curr_node) ->
            run_whitelist wl a literal
            = Ok (existsb (rule_matches a literal) wl)).
  { intros a Ha. apply run_whitelist_existsb.
    intros cls f e Hin Hc Hf. exact (Hrules a cls f e Ha Hin Hc Hf). }
  split.
  - clear Hrules.
    induction curr_node as [o|o up IH]; simpl; [reflexivity|].
    rewrite <- in_gettext_call_localization.
    destruct (in_gettext_call o); [reflexivity|].
    rewrite (Hrun o (or_introl eq_refl)). cbn [orb].
    destruct (existsb (rule_matches o literal) wl).
    + now rewrite ancestor_loop_true.
    + apply IH. intros a Ha. apply Hrun. now right.
  - apply ancestor_loop_no_abort. intros a Ha.
    rewrite (Hrun a Ha). eauto.
Qed.

Lemma flag_loop_refines_first_success_witness :
  scan_verdict
    (fst (ancestor_loop (whitelist Scenarios.fields)
            (Scenarios.lit Scenarios.zakaz) false nested_logging_tree))
  = first_success_scan (whitelist Scenarios.fields)
      (Scenarios.lit Scenarios.zakaz) nested_logging_tree
  /\ snd (ancestor_loop (whitelist Scenarios.fields)
            (Scenarios.lit Scenarios.zakaz) false nested_logging_tree)
     = None.
Proof.
  apply (flag_loop_refines_first_success (whitelist Scenarios.fields)
           (Scenarios.lit Scenarios.zakaz) nested_logging_tree).
  intros a cls f e Ha Hin Hc Hf.
  apply (whitelist_only_attribute_error Scenarios.fields a
           (Scenarios.lit Scenarios.zakaz)) with (cls := cls) (f := f);
    auto.
  simpl in Ha. destruct Ha as [<-|[<-|[<-|[<-|[]]]]]; reflexivity.
Defined.



(** C10. In an astroid tree, a Cyrillic literal not whitelisted by content
    is not reported as soon as some call among its ancestors has a callee
    that is an attribute access named by one of the ten queryset methods, or
    a callee whose [expr] is named [logging], [logger] or [console_logger].
    Both rules read the callee only: their answer at a call is the same for
    every literal, wherever it sits below the call. *)
Theorem callee_rules_exempt_any_position float_ok all node text d func :
  astroid_tree node ->
  attr (self node) "value" = Ok (VStr text) ->
  search_cyrillic text = true ->
  existsb (fun func => func text) (whitelisted_strings float_ok) = false ->
  In d (ancestors node) ->
  obj_class d = Call ->
  attr d "func" = Ok func ->
  (isinstance func Attribute = true
   /\ exists attrname, getattr func "attrname" = Ok (VStr attrname)
                       /\ In attrname queryset_names)
  \/ (exists expr name, getattr func "expr" = Ok expr
                        /\ getattr expr "name" = Ok (VStr name)
                        /\ In name logging_names) ->
  visit_const float_ok all node = Ok None
  /\ classify float_ok all node = Ok EXEMPT
  /\ forall other, queryset_rule d other = queryset_rule d (self node)
                   /\ logging_rule d other = logging_rule d (self node).
Proof.
  intros Htree Hv Hc Hw Hin Hcls Hfunc Hcallee.
  assert (Hvisit : visit_const float_ok all node = Ok None).
  { destruct Hcallee as [[Hattr (an & Han & Hmem)]
                        |(expr & name & Hexpr & Hname & Hmem)].
    - eapply exempt_by_rule with (d := d) (cls := Call) (f := queryset_rule);
        eauto.
      + discriminate.
      + simpl. tauto.
      + unfold queryset_rule, bind, and_then. rewrite Hfunc, Hattr, Han.
        now rewrite (str_in_In _ _ Hmem).
    - eapply exempt_by_rule with (d := d) (cls := Call) (f := logging_rule);
        eauto.
      + discriminate.
      + simpl. tauto.
      + unfold logging_rule, bind. rewrite Hfunc, Hexpr, Hname.
        now rewrite (str_in_In _ _ Hmem). }
  repeat split; auto. now apply classify_exempt.
Qed.

Lemma callee_rules_exempt_any_position_witness :
  visit_const ascii_float Scenarios.fields nested_logging_tree = Ok None
  /\ classify ascii_float Scenarios.fields nested_logging_tree = Ok EXEMPT
  /\ forall other,
       queryset_rule logger_call other
       = queryset_rule logger_call (Scenarios.lit Scenarios.zakaz)
       /\ logging_rule logger_call other
          = logging_rule logger_call (Scenarios.lit Scenarios.zakaz).
Proof.
  apply (callee_rules_exempt_any_position ascii_float Scenarios.fields
           nested_logging_tree Scenarios.zakaz logger_call
           (VObj (Astroid.mkAttribute 5 (py "info")
                    (Astroid.mkName 6 (py "logger")))));
    try reflexivity.
  - split; reflexivity.
  - simpl. right. right. left. reflexivity.
  - right. exists (VObj (Astroid.mkName 6 (py "logger"))), (py "logger").
    repeat split. simpl. right. left. reflexivity.
Defined.

(* --------------------------------------------------------------------- *)
(** *** The scenarios, evaluated                                          *)
(* --------------------------------------------------------------------- *)

Example scenario_db_table :
  Scenarios.run Scenarios.db_table_tree = Ok EXEMPT.
Proof. reflexivity. Qed.

Example scenario_gettext :
  Scenarios.run Scenarios.gettext_tree = Ok EXEMPT.
Proof. reflexivity. Qed.

Example scenario_bare_statement :
  Scenarios.run Scenarios.bare_tree = Ok FLAGGED.
Proof. reflexivity. Qed.

Example scenario_order_by :
  Scenarios.run Scenarios.order_by_tree = Ok EXEMPT.
Proof. reflexivity. Qed.

Example scenario_qualified_field :
  Scenarios.run Scenarios.qualified_field_tree = Ok EXEMPT.
Proof. reflexivity. Qed.

(** With a bare-name callee the model-field rule reads [func.attrname],
    which a [Name] lacks. *)
Example scenario_unqualified_field :
  Scenarios.run Scenarios.unqualified_field_tree = Ok FLAGGED.
Proof. reflexivity. Qed.

(** astroid's [Delete] has [targets] and no [value]: there the rule for
    [Delete] raises and is passed over; [del d['товар']] is whitelisted by
    the rule for [Index]. *)
Example delete_rule_on_targets_only :
  delete_rule (Astroid.mkDelete 5 [Scenarios.lit Scenarios.tovar])
    (Scenarios.lit Scenarios.tovar) = Raise AttributeError
  /\ Scenarios.run Scenarios.del_tree = Ok EXEMPT.
Proof. split; reflexivity. Qed.

Example scenario_dict_value :
  Scenarios.run Scenarios.dict_value_tree = Ok FLAGGED.
Proof. reflexivity. Qed.

(* ===================================================================== *)
(** ** Further properties of the module                                   *)
(* ===================================================================== *)

(* --------------------------------------------------------------------- *)
(** *** The helper predicates                                             *)
(* --------------------------------------------------------------------- *)

Lemma is_child_node_loop_iff (node : NodeNG) (p : pyobj) :
  is_child_node_loop node (VObj p) = true
  <-> exists a, In a (ancestors node) /\ obj_id a = obj_id p.
Proof.
  induction node as [o|o up IH]; simpl.
  - rewrite N.eqb_eq. split.
    + intros H. exists o. auto.
    + intros (a & [<-|[]] & H). auto.
  - destruct (N.eqb (obj_id p) (obj_id o)) eqn:He.
    + apply N.eqb_eq in He. split; [|reflexivity].
      intros _. exists o. auto.
    + rewrite IH. apply N.eqb_neq in He.
      split; intros (a & Hin & Hid).
      * exists a. auto.
      * destruct Hin as [<-|Hin]; [congruence|]. exists a. auto.
Qed.

Lemma is_child_node_loop_not_node (node : NodeNG) (parent : value) :
  (forall p, parent <> VObj p) -> is_child_node_loop node parent = false.
Proof.
  intros H. destruct parent as [| | | | | |p];
    [| | | | | |now destruct (H p)];
    induction node as [o|o up IH]; simpl; auto.
Qed.

(** X1. [is_child_node child parent] is [True] exactly when [child] is a
    node and [parent] is, by identity, the node itself or one of the nodes
    on its parent chain, the root included; for [child = None] and for a
    [parent] that is not a node ([None], a string, ...) it is [False]. *)
Theorem is_child_node_iff (child : option NodeNG) (parent : value) :
  is_child_node child parent = true
  <-> exists node p a, child = Some node /\ parent = VObj p
                       /\ In a (ancestors node) /\ obj_id a = obj_id p.
Proof.
  destruct child as [node|]; simpl.
  2:{ split; [discriminate|]. intros (n & p & a & H & _). discriminate. }
  split.
  - intros H. destruct parent as [| | | | | |p];
      try (rewrite is_child_node_loop_not_node in H;
           [discriminate|intros q; discriminate]).
    apply is_child_node_loop_iff in H. destruct H as (a & Hin & Hid).
    exists node, p, a. auto.
  - intros (n & p & a & Hn & -> & Hin & Hid). injection Hn as <-.
    apply is_child_node_loop_iff. exists a. auto.
Qed.

(** X2. Used as a condition, [_is_regex] accepts every string: it returns
    a one-element tuple, which is true, whose element is what the third and
    fourth content rules of [visit_const] compute together. *)
Theorem _is_regex_always_true (float_ok : pystr -> bool) (obj : pystr) :
  truthy (_is_regex obj) = true
  /\ _is_regex obj
     = VTuple [VBool (nth 2 (whitelisted_strings float_ok) (fun _ => false) obj
                      || nth 3 (whitelisted_strings float_ok)
                           (fun _ => false) obj)].
Proof.
  split; [reflexivity|].
  unfold _is_regex. simpl. now rewrite !orb_false_r, !orb_assoc.
Qed.

(** X3. [_is_cyrillic_str] holds exactly of the strings with a code point
    in U+0410..U+044F: the two ranges of the pattern are adjacent, and
    letters outside them (such as U+0401 and U+0451) do not count. *)
Theorem _is_cyrillic_str_iff (obj : value) :
  _is_cyrillic_str obj = true
  <-> exists s c, obj = VStr s /\ In c s /\ 1040 <= c <= 1103.
Proof.
  split.
  - destruct obj as [| | |s| | |]; simpl; try discriminate.
    intros H. apply search_cyrillic_spec in H. destruct H as [c [Hin Hc]].
    exists s, c. auto.
  - intros (s & c & -> & Hin & Hc). simpl. apply search_cyrillic_spec.
    exists c. auto.
Qed.

Lemma split_char_app (sep : N) (a b : pystr) :
  split_char sep (a ++ sep :: b) = split_char sep a ++ split_char sep b.
Proof.
  induction a as [|c a IH]; simpl.
  - now rewrite N.eqb_refl.
  - destruct (N.eqb c sep); [now rewrite IH|].
    rewrite IH. destruct (split_char sep a) as [|r rs] eqn:Hs; simpl.
    + destruct a; simpl in Hs; [discriminate|].
      destruct (N.eqb n sep); [discriminate|].
      destruct (split_char sep a); discriminate.
    + reflexivity.
Qed.

(** X4. Joining two texts with a newline joins their verdicts:
    [_is_comment_in_sql (a + '\n' + b)] is
    [_is_comment_in_sql a or _is_comment_in_sql b]. *)
Theorem _is_comment_in_sql_lines (a b : pystr) :
  _is_comment_in_sql (a ++ newline :: b)
  = _is_comment_in_sql a || _is_comment_in_sql b.
Proof.
  unfold _is_comment_in_sql.
  now rewrite split_char_app, map_app, existsb_app.
Qed.

Lemma lstrip_app_nonspace (x y : pystr) (c : N) :
  isspace c = false -> lstrip (x ++ c :: y) = lstrip x ++ c :: y.
Proof.
  intros Hc. induction x as [|d x IH]; simpl.
  - now rewrite Hc.
  - destruct (isspace d); [exact IH|reflexivity].
Qed.

Lemma rstrip_cons_nonspace (c : N) (y : pystr) :
  isspace c = false -> rstrip (c :: y) = c :: rstrip y.
Proof.
  intros Hc. unfold rstrip. simpl.
  rewrite (lstrip_app_nonspace (rev y) [] c Hc).
  rewrite rev_app_distr. reflexivity.
Qed.

Lemma rstrip_head (c : N) (y : pystr) :
  rstrip (c :: y) = [] \/ exists z, rstrip (c :: y) = c :: z.
Proof.
  destruct (isspace c) eqn:Hc.
  - unfold rstrip. simpl.
    destruct (lstrip (rev y ++ [c])) as [|d l] eqn:Hl; [now left|].
    right.
    assert (Hsuf : exists p, rev y ++ [c] = p ++ d :: l).
    { clear Hc. generalize (rev y ++ [c]) Hl. intros x.
      induction x as [|e x IH]; simpl; [discriminate|].
      destruct (isspace e).
      - intros H. destruct (IH H) as [p Hp]. exists (e :: p).
        now rewrite Hp.
      - intros H. exists []. now rewrite H. }
    destruct Hsuf as [p Hp].
    assert (Hrev : c :: y = rev (d :: l) ++ rev p).
    { rewrite <- rev_app_distr, <- Hp, rev_app_distr, rev_involutive.
      reflexivity. }
    destruct (rev (d :: l)) as [|e z] eqn:He.
    + apply (f_equal (@List.length N)) in He. rewrite length_rev in He.
      discriminate.
    + injection Hrev as <- _. exists z. reflexivity.
  - right. exists (rstrip y). now apply rstrip_cons_nonspace.
Qed.

Lemma lstrip_head (s : pystr) :
  lstrip s = [] \/ exists c t, lstrip s = c :: t /\ isspace c = false.
Proof.
  induction s as [|c s IH]; simpl; [now left|].
  destruct (isspace c) eqn:Hc; [exact IH|].
  right. exists c, s. auto.
Qed.

Lemma startswith_nil (s : pystr) : startswith s [] = true.
Proof. now destruct s. Qed.

Lemma strip_dashes (row : pystr) :
  startswith (strip row) (py "--") = startswith (lstrip row) (py "--").
Proof.
  unfold strip. change (py "--") with [45; 45].
  destruct (lstrip_head row) as [->|(c & t & -> & Hc)]; [reflexivity|].
  rewrite (rstrip_cons_nonspace c t Hc). cbn [startswith].
  destruct (N.eqb 45 c); [|reflexivity]. cbn [andb].
  destruct t as [|d t]; [reflexivity|].
  destruct (rstrip_head d t) as [Hr|[z Hr]]; rewrite Hr; cbn [startswith].
  - destruct (N.eqb 45 d) eqn:Hd; [|reflexivity].
    apply N.eqb_eq in Hd. subst d.
    rewrite (rstrip_cons_nonspace 45 t eq_refl) in Hr. discriminate.
  - now rewrite !startswith_nil.
Qed.

(** X5. Only what precedes [--] on a line matters: [_is_comment_in_sql]
    is [True] exactly when some line of the text (split at newlines) has
    [--] right after its leading whitespace; trailing whitespace, removed
    by [strip], never changes the answer. *)
Theorem _is_comment_in_sql_leading (obj : pystr) :
  _is_comment_in_sql obj
  = existsb (fun row => startswith (lstrip row) (py "--"))
      (split_char newline obj).
Proof.
  unfold _is_comment_in_sql.
  induction (split_char newline obj) as [|row rows IH]; simpl in *;
    [reflexivity|].
  rewrite IH. f_equal. pose proof (strip_dashes row) as H. simpl in H.
  exact H.
Qed.

Lemma load_configuration_iter_length (n : nat) (bl : list pystr) :
  List.length (Nat.iter n load_configuration bl) = (List.length bl + 4 * n)%nat.
Proof.
  induction n as [|n IH]; simpl; [lia|].
  unfold load_configuration at 1. rewrite length_app, IH. simpl. lia.
Qed.

(** X6. [load_configuration] keeps every name already on the black list
    and adds [migrations], [tests], [factories.py] and [tests.py]; calling
    it again black-lists nothing new but appends the four names once more,
    so after [n] calls the list is [4 * n] entries longer. *)
Theorem load_configuration_repeated (n : nat) (bl : list pystr) (x : pystr) :
  (In x (Nat.iter (S n) load_configuration bl)
   <-> In x bl \/ In x [py "migrations"; py "tests"; py "factories.py";
                        py "tests.py"])
  /\ List.length (Nat.iter n load_configuration bl)
     = (List.length bl + 4 * n)%nat.
Proof.
  split; [|apply load_configuration_iter_length].
  induction n as [|n IH].
  - simpl Nat.iter. unfold load_configuration. apply in_app_iff.
  - change (Nat.iter (S (S n)) load_configuration bl)
      with (load_configuration (Nat.iter (S n) load_configuration bl)).
    unfold load_configuration at 1. rewrite in_app_iff, IH. tauto.
Qed.

(* --------------------------------------------------------------------- *)
(** *** The structural rules not named above                              *)
(* --------------------------------------------------------------------- *)

(** X7. In an astroid tree, a Cyrillic literal not whitelisted by content
    that is the [value] of an [Index] node among its ancestors (the key of
    a subscript such as [d['ключ']]) is not reported. *)
Theorem index_value_exempt float_ok all node text d v :
  astroid_tree node ->
  attr (self node) "value" = Ok (VStr text) ->
  search_cyrillic text = true ->
  existsb (fun func => func text) (whitelisted_strings float_ok) = false ->
  In d (ancestors node) ->
  obj_class d = Index ->
  attr d "value" = Ok v ->
  eq_node v (self node) = true ->
  visit_const float_ok all node = Ok None
  /\ classify float_ok all node = Ok EXEMPT.
Proof.
  intros Htree Hv Hc Hw Hin Hcls Hval Heq.
  assert (Hvisit : visit_const float_ok all node = Ok None).
  { eapply exempt_by_rule with (d := d) (cls := Index) (f := index_rule);
      eauto.
    - discriminate.
    - simpl. tauto.
    - unfold index_rule, bind. now rewrite Hval, Heq. }
  split; [exact Hvisit|now apply classify_exempt].
Qed.

Lemma index_value_exempt_witness :
  visit_const ascii_float Scenarios.fields Scenarios.del_tree = Ok None
  /\ classify ascii_float Scenarios.fields Scenarios.del_tree = Ok EXEMPT.
Proof.
  apply (index_value_exempt ascii_float Scenarios.fields Scenarios.del_tree
           Scenarios.tovar
           (Astroid.mkIndex 2 (Scenarios.lit Scenarios.tovar))
           (VObj (Scenarios.lit Scenarios.tovar))); try reflexivity.
  - split; reflexivity.
  - simpl. right. left. reflexivity.
Defined.

(** X8. In an astroid tree, every Cyrillic literal not whitelisted by
    content that lies anywhere below an assignment with exactly one target,
    whose [name] is [db_table], [verbose_name] or [verbose_name_plural], is
    not reported: the rule for [Assign] does not look at the literal. *)
Theorem assign_target_exempt float_ok all node text d target name :
  astroid_tree node ->
  attr (self node) "value" = Ok (VStr text) ->
  search_cyrillic text = true ->
  existsb (fun func => func text) (whitelisted_strings float_ok) = false ->
  In d (ancestors node) ->
  obj_class d = Assign ->
  attr d "targets" = Ok (VList [target]) ->
  getattr target "name" = Ok (VStr name) ->
  In name [py "db_table"; py "verbose_name"; py "verbose_name_plural"] ->
  visit_const float_ok all node = Ok None
  /\ classify float_ok all node = Ok EXEMPT.
Proof.
  intros Htree Hv Hc Hw Hin Hcls Htargets Hname Hmem.
  assert (Hvisit : visit_const float_ok all node = Ok None).
  { eapply exempt_by_rule with (d := d) (cls := Assign) (f := assign_rule);
      eauto.
    - discriminate.
    - simpl. tauto.
    - unfold assign_rule, bind, and_then. rewrite Htargets.
      cbn [py_len py_iter bind List.length Nat.eqb getitem nth_error].
      rewrite (hasattr_getattr _ _ _ Hname), Hname.
      now rewrite (str_in_In _ _ Hmem). }
  split; [exact Hvisit|now apply classify_exempt].
Qed.

Lemma assign_target_exempt_witness :
  visit_const ascii_float Scenarios.fields nested_assign_tree = Ok None
  /\ classify ascii_float Scenarios.fields nested_assign_tree = Ok EXEMPT.
Proof.
  apply (assign_target_exempt ascii_float Scenarios.fields nested_assign_tree
           Scenarios.zakaz nested_assign
           (VObj (Astroid.mkAssignName 5 (py "verbose_name")))
           (py "verbose_name")); try reflexivity.
  - split; reflexivity.
  - simpl. right. right. left. reflexivity.
  - simpl. right. left. reflexivity.
Defined.

(** X9. The rule for [Assign] answers [False], without raising, for an
    assignment with a number of targets other than one ([a = b = '...']),
    and for a single target that has no [name] (an attribute or subscript
    target such as [self.verbose_name = '...']). *)
Theorem assign_rule_no_match d node targets :
  attr d "targets" = Ok (VList targets) ->
  List.length targets <> 1%nat
  \/ (exists target, targets = [target] /\ hasattr target "name" = false) ->
  assign_rule d node = Ok false.
Proof.
  intros Htargets Hshape. unfold assign_rule, bind, and_then.
  rewrite Htargets. cbn [py_len py_iter bind].
  destruct Hshape as [Hlen|(target & -> & Hno)].
  - destruct (Nat.eqb (List.length targets) 1) eqn:He; [|reflexivity].
    apply Nat.eqb_eq in He. contradiction.
  - cbn [List.length Nat.eqb getitem py_iter bind nth_error]. now rewrite Hno.
Qed.

Lemma assign_rule_no_match_witness :
  assign_rule attribute_target_assign (Scenarios.lit Scenarios.zakaz)
  = Ok false
  /\ classify ascii_float Scenarios.fields attribute_target_tree = Ok FLAGGED.
Proof.
  split; [|reflexivity].
  apply (assign_rule_no_match attribute_target_assign
           (Scenarios.lit Scenarios.zakaz)
           [VObj (Obj 3 AssignAttr
                    [("attrname", VStr (py "verbose_name"));
                     ("expr", VObj (Astroid.mkName 4 (py "self")))])]).
  - reflexivity.
  - right. eexists. split; reflexivity.
Defined.

(** X10. In an astroid tree, a Cyrillic literal not whitelisted by content
    that is the [value] of a keyword argument named [verbose_name] or
    [help_text] among its ancestors is not reported; for a keyword whose
    [value] is another node (the literal lies deeper) or whose name is
    another one, the rule for [Keyword] answers [False]. *)
Theorem keyword_value_exempt float_ok all node text d arg v :
  astroid_tree node ->
  attr (self node) "value" = Ok (VStr text) ->
  search_cyrillic text = true ->
  existsb (fun func => func text) (whitelisted_strings float_ok) = false ->
  In d (ancestors node) ->
  obj_class d = Keyword ->
  attr d "arg" = Ok arg ->
  attr d "value" = Ok v ->
  (str_in arg [py "verbose_name"; py "help_text"] = true ->
   eq_node v (self node) = true ->
   visit_const float_ok all node = Ok None
   /\ classify float_ok all node = Ok EXEMPT)
  /\ (str_in arg [py "verbose_name"; py "help_text"] = false
      \/ eq_node v (self node) = false ->
      keyword_rule d (self node) = Ok false).
Proof.
  intros Htree Hv Hc Hw Hin Hcls Harg Hval.
  assert (Hrule : keyword_rule d (self node)
                  = Ok (str_in arg [py "verbose_name"; py "help_text"]
                        && eq_node v (self node))).
  { unfold keyword_rule, bind, and_then. rewrite Harg, Hval.
    now destruct (str_in arg [py "verbose_name"; py "help_text"]). }
  split.
  - intros Hname Heq. rewrite Hname, Heq in Hrule.
    assert (Hvisit : visit_const float_ok all node = Ok None).
    { eapply exempt_by_rule
        with (d := d) (cls := Keyword) (f := keyword_rule); eauto.
      - discriminate.
      - simpl. tauto. }
    split; [exact Hvisit|now apply classify_exempt].
  - intros [H|H]; rewrite H in Hrule; [exact Hrule|].
    now rewrite andb_false_r in Hrule.
Qed.

Lemma keyword_value_exempt_witness :
  classify ascii_float Scenarios.fields help_text_tree = Ok EXEMPT
  /\ keyword_rule (Astroid.mkKeyword 2 (py "label")
                     (Scenarios.lit Scenarios.zakaz))
       (Scenarios.lit Scenarios.zakaz) = Ok false.
Proof.
  split.
  - refine (proj2 (proj1 (keyword_value_exempt ascii_float Scenarios.fields
             help_text_tree Scenarios.zakaz help_text_keyword
             (VStr (py "help_text")) (VObj (Scenarios.lit Scenarios.zakaz))
             _ _ _ _ _ _ _ _) _ _)); try reflexivity.
    + split; reflexivity.
    + simpl. right. left. reflexivity.
  - refine (proj2 (keyword_value_exempt ascii_float Scenarios.fields
             label_tree Scenarios.zakaz
             (Astroid.mkKeyword 2 (py "label") (Scenarios.lit Scenarios.zakaz))
             (VStr (py "label")) (VObj (Scenarios.lit Scenarios.zakaz))
             _ _ _ _ _ _ _ _) _); try reflexivity.
    + split; reflexivity.
    + simpl. right. left. reflexivity.
    + left. reflexivity.
Defined.

(** X11. In an astroid tree, a Cyrillic literal not whitelisted by content
    that is the left operand of a comparison among its ancestors, or the
    right operand of its first operator, is not reported. *)
Theorem compare_operand_exempt float_ok all node text d left op rhs ops :
  astroid_tree node ->
  attr (self node) "value" = Ok (VStr text) ->
  search_cyrillic text = true ->
  existsb (fun func => func text) (whitelisted_strings float_ok) = false ->
  In d (ancestors node) ->
  obj_class d = Compare ->
  attr d "left" = Ok left ->
  attr d "ops" = Ok (VList (VTuple [op; rhs] :: ops)) ->
  eq_node left (self node) = true \/ eq_node rhs (self node) = true ->
  visit_const float_ok all node = Ok None
  /\ classify float_ok all node = Ok EXEMPT.
Proof.
  intros Htree Hv Hc Hw Hin Hcls Hleft Hops Hoperand.
  assert (Hvisit : visit_const float_ok all node = Ok None).
  { destruct Hoperand as [Heq|Heq].
    - eapply exempt_by_rule
        with (d := d) (cls := Compare) (f := compare_left_rule); eauto.
      + discriminate.
      + simpl. tauto.
      + unfold compare_left_rule, bind. now rewrite Hleft, Heq.
    - eapply exempt_by_rule
        with (d := d) (cls := Compare) (f := compare_ops_rule); eauto.
      + discriminate.
      + simpl. tauto.
      + unfold compare_ops_rule, bind. rewrite Hops. simpl. now rewrite Heq. }
  split; [exact Hvisit|now apply classify_exempt].
Qed.

Lemma compare_operand_exempt_witness :
  visit_const ascii_float Scenarios.fields compare_first_tree = Ok None
  /\ classify ascii_float Scenarios.fields compare_first_tree = Ok EXEMPT.
Proof.
  apply (compare_operand_exempt ascii_float Scenarios.fields
           compare_first_tree Scenarios.zakaz compare_first
           (VObj (Astroid.mkName 3 (py "status"))) (VStr (py "=="))
           (VObj (Scenarios.lit Scenarios.zakaz)) []); try reflexivity.
  - split; reflexivity.
  - simpl. right. left. reflexivity.
  - right. reflexivity.
Defined.

(** X12. Only the first comparator of a chained comparison is looked at:
    when the literal is neither the left operand nor the right operand of
    the first operator (it is a later operand of [a == b == '...'], or lies
    deeper), both rules for [Compare] answer [False] and the node is passed
    over. *)
Theorem compare_later_operand_no_match all d node left op rhs ops :
  obj_class d = Compare ->
  attr d "left" = Ok left ->
  attr d "ops" = Ok (VList (VTuple [op; rhs] :: ops)) ->
  eq_node left node = false ->
  eq_node rhs node = false ->
  compare_ops_rule d node = Ok false
  /\ compare_left_rule d node = Ok false
  /\ run_whitelist (whitelist all) d node = Ok false.
Proof.
  intros Hcls Hleft Hops Hl Hr.
  assert (H1 : compare_ops_rule d node = Ok false)
    by (unfold compare_ops_rule, bind; rewrite Hops; simpl; now rewrite Hr).
  assert (H2 : compare_left_rule d node = Ok false)
    by (unfold compare_left_rule, bind; now rewrite Hleft, Hl).
  repeat split; auto.
  unfold whitelist. cbn [run_whitelist]. rewrite Hcls. cbn [class_eqb].
  simpl. now rewrite H1, H2.
Qed.

Lemma compare_later_operand_no_match_witness :
  run_whitelist (whitelist Scenarios.fields) compare_chained
    (Scenarios.lit Scenarios.zakaz) = Ok false
  /\ classify ascii_float Scenarios.fields compare_chained_tree = Ok FLAGGED.
Proof.
  split; [|reflexivity].
  refine (proj2 (proj2 (compare_later_operand_no_match Scenarios.fields
            compare_chained (Scenarios.lit Scenarios.zakaz)
            (VObj (Astroid.mkName 3 (py "a"))) (VStr (py "=="))
            (VObj (Astroid.mkName 4 (py "b")))
            [VTuple [VStr (py "=="); VObj (Scenarios.lit Scenarios.zakaz)]]
            _ _ _ _ _))); reflexivity.
Defined.

(* --------------------------------------------------------------------- *)
(** *** The visit as a whole                                              *)
(* --------------------------------------------------------------------- *)

Lemma ancestor_loop_false_inv (wl : list rule) (n : pyobj) (curr : NodeNG) :
  (forall a, In a (scan_path curr) -> exists b, run_whitelist wl a n = Ok b) ->
  fst (ancestor_loop wl n false curr) = false ->
  forall a, In a (scan_path curr) ->
            in_gettext_call a = false /\ run_whitelist wl a n = Ok false.
Proof.
  induction curr as [o|o up IH]; simpl; intros Hok Hf a Ha; [contradiction|].
  destruct (in_gettext_call o) eqn:Hg; [discriminate|].
  destruct (Hok o (or_introl eq_refl)) as [r Hr]. rewrite Hr in Hf.
  destruct r; [now rewrite ancestor_loop_true in Hf|].
  destruct Ha as [<-|Ha]; auto.
Qed.

(** X13. In a well-shaped tree a constant is reported exactly when its
    value is a Cyrillic string, no content rule whitelists it, and at every
    node the walk examines the gettext test fails and no whitelist rule
    matches; the message is then W0001 on the constant with its text, and
    in every other case the visit returns without a message. *)
Theorem reported_iff float_ok all node text :
  well_shaped node ->
  attr (self node) "value" = Ok (VStr text) ->
  (visit_const float_ok all node
   = Ok (Some (add_message "W0001" (obj_id (self node)) (VStr text)))
   <-> search_cyrillic text = true
       /\ existsb (fun func => func text) (whitelisted_strings float_ok) = false
       /\ forall a, In a (scan_path node) ->
            in_gettext_call a = false
            /\ run_whitelist (whitelist all) a (self node) = Ok false)
  /\ (visit_const float_ok all node
      = Ok (Some (add_message "W0001" (obj_id (self node)) (VStr text)))
      \/ visit_const float_ok all node = Ok None).
Proof.
  intros Hs Hv.
  assert (Hor : visit_const float_ok all node
                = Ok (Some (add_message "W0001" (obj_id (self node))
                              (VStr text)))
                \/ visit_const float_ok all node = Ok None).
  { unfold visit_const, visit_const_with, bind. rewrite Hv.
    destruct (negb (_is_cyrillic_str (VStr text))); auto.
    destruct (existsb _ _); auto.
    destruct (negb _); auto. }
  split; [|exact Hor]. split.
  - intros Hvisit.
    destruct (search_cyrillic text) eqn:Hc.
    2:{ unfold visit_const, visit_const_with, bind in Hvisit.
        rewrite Hv in Hvisit. cbn [_is_cyrillic_str] in Hvisit.
        rewrite Hc in Hvisit. discriminate. }
    destruct (existsb (fun func => func text) (whitelisted_strings float_ok))
      eqn:Hw.
    { unfold visit_const, visit_const_with, bind in Hvisit.
      rewrite Hv in Hvisit. cbn [_is_cyrillic_str] in Hvisit.
      rewrite Hc in Hvisit. cbn [negb] in Hvisit. rewrite Hw in Hvisit.
      discriminate. }
    repeat split; auto;
      unfold visit_const in Hvisit;
      rewrite (visit_const_scanned _ _ _ _ Hv Hc Hw) in Hvisit;
      destruct (fst (ancestor_loop (whitelist all) (self node) false node))
        eqn:Hloop; try discriminate;
      apply (ancestor_loop_false_inv (whitelist all) (self node) node
               (well_shaped_no_raise all (self node) node Hs) Hloop a H).
  - intros (Hc & Hw & Hno). unfold visit_const.
    rewrite (visit_const_scanned _ _ _ _ Hv Hc Hw).
    rewrite ancestor_loop_miss; [reflexivity|].
    intros a Ha. destruct (Hno a Ha) as [Hg Hr]. split; [exact Hg|].
    congruence.
Qed.

Lemma reported_iff_witness :
  visit_const ascii_float Scenarios.fields Scenarios.bare_tree
  = Ok (Some (add_message "W0001" 1 (VStr Scenarios.zakaz)))
  /\ visit_const ascii_float Scenarios.fields Scenarios.gettext_tree
     <> Ok (Some (add_message "W0001" 1 (VStr Scenarios.zakaz))).
Proof.
  split.
  - apply (proj1 (reported_iff ascii_float Scenarios.fields
                    Scenarios.bare_tree Scenarios.zakaz eq_refl eq_refl)).
    repeat split; try reflexivity;
      simpl in H; destruct H as [<-|[<-|[]]]; reflexivity.
  - intros Hvisit.
    apply (proj1 (reported_iff ascii_float Scenarios.fields
                    Scenarios.gettext_tree Scenarios.zakaz eq_refl eq_refl))
      in Hvisit.
    destruct Hvisit as (_ & _ & Hno).
    destruct (Hno (Astroid.mkCall 2 (Astroid.mkName 3 (py "_"))
                     [Scenarios.lit Scenarios.zakaz] [])) as [Hg _].
    + simpl. right. left. reflexivity.
    + discriminate Hg.
Defined.

(** X14. On a well-shaped tree no exception reaches the outer handler of
    the walk, and the only exception that leaves [visit_const] is the
    [AttributeError] of a node without [value]: whenever the node has a
    [value], the visit returns normally. *)
Theorem visit_const_raises_only_without_value float_ok all node :
  well_shaped node ->
  (forall string_ok,
      snd (ancestor_loop (whitelist all) (self node) string_ok node) = None)
  /\ (forall v, attr (self node) "value" = Ok v ->
                exists r, visit_const float_ok all node = Ok r)
  /\ (forall e, visit_const float_ok all node = Raise e ->
                e = AttributeError
                /\ attr (self node) "value" = Raise AttributeError).
Proof.
  intros Hs. split; [|split].
  - apply ancestor_loop_no_abort. now apply well_shaped_no_raise.
  - intros v Hv. unfold visit_const, visit_const_with, bind. rewrite Hv.
    destruct (negb (_is_cyrillic_str v)); [eauto|].
    destruct v; eauto.
    destruct (existsb _ _); [eauto|].
    destruct (negb _); eauto.
  - intros e. unfold visit_const, visit_const_with, bind.
    destruct (attr (self node) "value") as [v|e'] eqn:Hv.
    + destruct (negb (_is_cyrillic_str v)); [discriminate|].
      destruct v; try discriminate.
      destruct (existsb _ _); [discriminate|].
      destruct (negb _); discriminate.
    + intros H. injection H as <-.
      pose proof (attr_raise _ _ _ Hv) as ->. auto.
Qed.

Lemma visit_const_raises_only_without_value_witness :
  snd (ancestor_loop (whitelist Scenarios.fields)
         (Scenarios.lit Scenarios.zakaz) false nested_logging_tree) = None
  /\ exists r, visit_const ascii_float Scenarios.fields nested_logging_tree
               = Ok r.
Proof.
  destruct (visit_const_raises_only_without_value ascii_float
              Scenarios.fields nested_logging_tree eq_refl)
    as (Hloop & Hvalue & _).
  split; [exact (Hloop false)|].
  exact (Hvalue (VStr Scenarios.zakaz) eq_refl).
Defined.

Lemma ancestor_loop_under (wl : list rule) (n : pyobj) (pre : list pyobj)
  (curr : NodeNG) (b : bool) :
  (forall a, In a pre ->
             in_gettext_call a = false /\ run_whitelist wl a n = Ok false) ->
  ancestor_loop wl n b (under pre curr) = ancestor_loop wl n b curr.
Proof.
  induction pre as [|o pre IH]; simpl; intros H; [reflexivity|].
  destruct (H o (or_introl eq_refl)) as [Hg Hr]. rewrite Hg, Hr.
  apply IH. intros a Ha. apply H. now right.
Qed.

(** X15. The flag [string_ok] is settled at the first node of the walk
    where something happens, and nothing above that node can change it.  If
    the nodes below [d] neither are gettext calls nor match a rule, then:
    a gettext call or a matching rule at [d] leaves [string_ok] true
    whatever lies above, even nodes on which the rules raise; and a rule
    that leaves the loop at [d] by an exception other than [AttributeError]
    ends the walk with [string_ok] false and that exception caught by the
    outer handler, even when a gettext call lies above. *)
Theorem first_decisive_node wl literal pre d up :
  (forall a, In a pre ->
     in_gettext_call a = false /\ run_whitelist wl a literal = Ok false) ->
  (in_gettext_call d = true \/ run_whitelist wl d literal = Ok true ->
   fst (ancestor_loop wl literal false (under pre (Child d up))) = true)
  /\ (forall e, in_gettext_call d = false ->
                run_whitelist wl d literal = Raise e ->
                ancestor_loop wl literal false (under pre (Child d up))
                = (false, Some e)).
Proof.
  intros Hpre. rewrite (ancestor_loop_under wl literal pre _ false Hpre).
  simpl. split.
  - intros [Hg|Hr].
    + now rewrite Hg.
    + destruct (in_gettext_call d); [reflexivity|].
      rewrite Hr. apply ancestor_loop_true.
  - intros e Hg Hr. now rewrite Hg, Hr.
Qed.

Lemma first_decisive_node_witness :
  fst (ancestor_loop (whitelist Scenarios.fields)
         (Scenarios.lit Scenarios.zakaz) false Scenarios.gettext_tree) = true
  /\ ancestor_loop (whitelist Scenarios.fields)
       (Scenarios.lit Scenarios.zakaz) false broken_dict_tree
     = (false, Some TypeError).
Proof.
  split.
  - refine (proj1 (first_decisive_node (whitelist Scenarios.fields)
              (Scenarios.lit Scenarios.zakaz) [Scenarios.lit Scenarios.zakaz]
              (Astroid.mkCall 2 (Astroid.mkName 3 (py "_"))
                 [Scenarios.lit Scenarios.zakaz] [])
              _ _) _).
    + intros a [<-|[]]. split; reflexivity.
    + left. reflexivity.
  - refine (proj2 (first_decisive_node (whitelist Scenarios.fields)
              (Scenarios.lit Scenarios.zakaz) [Scenarios.lit Scenarios.zakaz]
              broken_dict _ _) TypeError _ _); try reflexivity.
    intros a [<-|[]]. split; reflexivity.
Defined.

(** X16. The root is never examined: replacing the root object by any
    other leaves the walk and the visit unchanged, so a node without parent
    exempts nothing, whatever its class. *)
Theorem root_is_not_examined float_ok wl literal pre o o' :
  visit_const_with float_ok wl (Child literal (under pre (Root o)))
  = visit_const_with float_ok wl (Child literal (under pre (Root o'))).
Proof.
  assert (Hloop : forall b n,
            ancestor_loop wl n b (under pre (Root o))
            = ancestor_loop wl n b (under pre (Root o'))).
  { intros b n. revert b.
    induction pre as [|a pre IH]; simpl; intros b; [reflexivity|].
    destruct (in_gettext_call a); [reflexivity|].
    destruct (run_whitelist wl a n) as [[|]|e]; auto. }
  unfold visit_const_with. simpl. now rewrite !Hloop.
Qed.

Lemma existsb_permutation {A} (f : A -> bool) (l l' : list A) :
  Permutation l l' -> existsb f l = existsb f l'.
Proof.
  intros Hp. destruct (existsb f l) eqn:H1, (existsb f l') eqn:H2; auto.
  - apply existsb_exists in H1. destruct H1 as [x [Hin Hx]].
    assert (H : existsb f l' = true)
      by (apply existsb_exists; exists x; split; auto;
          eapply Permutation_in; eauto).
    congruence.
  - apply existsb_exists in H2. destruct H2 as [x [Hin Hx]].
    assert (H : existsb f l = true)
      by (apply existsb_exists; exists x; split; auto;
          eapply Permutation_in; [apply Permutation_sym|]; eauto).
    congruence.
Qed.

(** X17. On well-shaped trees the order of the whitelist is immaterial:
    visiting with any rearrangement of the ten rules gives the result of
    [visit_const]. *)
Theorem whitelist_order_is_immaterial float_ok all wl' node :
  well_shaped node ->
  Permutation (whitelist all) wl' ->
  visit_const_with float_ok wl' node = visit_const float_ok all node.
Proof.
  intros Hs Hp. unfold visit_const, visit_const_with.
  rewrite (ancestor_loop_ext wl' (whitelist all)); [reflexivity|].
  intros a Ha.
  assert (Hshape : astroid_fields a = true)
    by (unfold well_shaped in Hs; rewrite forallb_forall in Hs; auto).
  rewrite (run_whitelist_existsb (whitelist all) a (self node)
             (whitelist_only_attribute_error all a (self node) Hshape)).
  rewrite (run_whitelist_existsb wl').
  - f_equal. apply existsb_permutation. now apply Permutation_sym.
  - intros cls f e Hin.
    apply (whitelist_only_attribute_error all a (self node) Hshape).
    eapply Permutation_in; [apply Permutation_sym|]; eauto.
Qed.

Lemma whitelist_order_is_immaterial_witness :
  visit_const_with ascii_float (rev (whitelist Scenarios.fields))
    Scenarios.order_by_tree
  = visit_const ascii_float Scenarios.fields Scenarios.order_by_tree.
Proof.
  apply (whitelist_order_is_immaterial ascii_float Scenarios.fields
           (rev (whitelist Scenarios.fields)) Scenarios.order_by_tree).
  - reflexivity.
  - apply Permutation_rev.
Defined.

(** X18. A node of a class no rule is registered for (any class other than
    [Dict], [Index], [Assign], [Delete], [Keyword], [Compare] and [Call])
    is passed over: removing it from the parent chain, wherever it stands
    below the root and above the literal, changes neither the verdict nor
    what the outer handler sees. *)
Theorem unlisted_class_is_passed_over all literal pre o up string_ok :
  ~ In (obj_class o) [Dict; Index; Assign; Delete; Keyword; Compare; Call] ->
  ancestor_loop (whitelist all) literal string_ok
    (under pre (Child o up))
  = ancestor_loop (whitelist all) literal string_ok (under pre up).
Proof.
  intros Hcls.
  assert (Hstep : forall b,
            ancestor_loop (whitelist all) literal b (Child o up)
            = ancestor_loop (whitelist all) literal b up).
  { intros b. simpl. unfold in_gettext_call.
    destruct (obj_class o); simpl in Hcls; try tauto; reflexivity. }
  revert string_ok.
  induction pre as [|a pre IH]; cbn [under ancestor_loop]; intros b.
  - apply Hstep.
  - destruct (in_gettext_call a); [reflexivity|].
    destruct (run_whitelist (whitelist all) a literal) as [[|]|e];
      [apply IH|apply IH|reflexivity].
Qed.

Lemma unlisted_class_is_passed_over_witness :
  ancestor_loop (whitelist Scenarios.fields) (Scenarios.lit Scenarios.zakaz)
    false Scenarios.bare_tree
  = ancestor_loop (whitelist Scenarios.fields) (Scenarios.lit Scenarios.zakaz)
      false (Child (Scenarios.lit Scenarios.zakaz) (Root (Astroid.mkModule 0))).
Proof.
  apply (unlisted_class_is_passed_over Scenarios.fields
           (Scenarios.lit Scenarios.zakaz) [Scenarios.lit Scenarios.zakaz]
           (Astroid.mkExpr 2 (Scenarios.lit Scenarios.zakaz))
           (Root (Astroid.mkModule 0)) false).
  simpl. intros H.
  repeat (destruct H as [H|H]; [discriminate H|]). exact H.
Defined.

(** X19. A call through a callee that has neither [attrname] nor [expr]
    (a bare name such as [CharField('...')]) is matched by none of the three
    rules for [Call], whatever [__all__] contains and whatever the
    arguments are: only the gettext test can exempt below such a call. *)
Theorem bare_name_call_matches_no_rule all d node func :
  obj_class d = Call ->
  attr d "func" = Ok func ->
  hasattr func "attrname" = false ->
  hasattr func "expr" = false ->
  run_whitelist (whitelist all) d node = Ok false
  /\ model_field_rule all d node = Raise AttributeError.
Proof.
  intros Hcls Hfunc Hattr Hexpr.
  unfold hasattr in Hattr, Hexpr.
  destruct (getattr func "attrname") as [?|e1] eqn:H1; [discriminate|].
  destruct (getattr func "expr") as [?|e2] eqn:H2; [discriminate|].
  pose proof (getattr_raise _ _ _ H1) as ->.
  pose proof (getattr_raise _ _ _ H2) as ->.
  assert (Hq : queryset_rule d node = Ok false
               \/ queryset_rule d node = Raise AttributeError).
  { unfold queryset_rule, bind, and_then. rewrite Hfunc, H1.
    destruct (isinstance func Attribute); auto. }
  assert (Hl : logging_rule d node = Raise AttributeError)
    by (unfold logging_rule, bind; now rewrite Hfunc, H2).
  assert (Hm : model_field_rule all d node = Raise AttributeError)
    by (unfold model_field_rule, bind; now rewrite Hfunc, H1).
  split; [|exact Hm].
  unfold whitelist. cbn [run_whitelist]. rewrite Hcls. cbn [class_eqb].
  simpl. rewrite Hl, Hm. destruct Hq as [-> | ->]; reflexivity.
Qed.

Lemma bare_name_call_matches_no_rule_witness :
  run_whitelist (whitelist Scenarios.fields)
    (Scenarios.field_call (Astroid.mkName 3 (py "CharField")))
    (Scenarios.lit Scenarios.zakaz) = Ok false
  /\ model_field_rule Scenarios.fields
       (Scenarios.field_call (Astroid.mkName 3 (py "CharField")))
       (Scenarios.lit Scenarios.zakaz) = Raise AttributeError.
Proof.
  apply (bare_name_call_matches_no_rule Scenarios.fields
           (Scenarios.field_call (Astroid.mkName 3 (py "CharField")))
           (Scenarios.lit Scenarios.zakaz)
           (VObj (Astroid.mkName 3 (py "CharField")))); reflexivity.
Defined.

Lemma str_eqb_eq (a b : pystr) : str_eqb a b = true <-> a = b.
Proof.
  revert b. induction a as [|x a IH]; intros [|y b]; simpl;
    try (split; [discriminate|discriminate]); [tauto|].
  rewrite andb_true_iff, N.eqb_eq, IH. split.
  - intros [-> ->]. reflexivity.
  - intros H. injection H as -> ->. auto.
Qed.

(** X20. The gettext test succeeds at a node exactly when the node is a
    [Call] whose [func] has a [name] attribute holding one of the nine
    names; a call through an attribute access ([translation.gettext('...')])
    has no [func.name] and is not taken for a gettext call. *)
Theorem in_gettext_call_iff d :
  in_gettext_call d = true
  <-> obj_class d = Call
      /\ exists func name, attr d "func" = Ok func
                           /\ getattr func "name" = Ok (VStr name)
                           /\ In name gettext_names.
Proof.
  unfold in_gettext_call. split.
  - destruct (class_eqb (obj_class d) Call) eqn:Hc; [|discriminate].
    apply class_eqb_eq in Hc.
    destruct (attr d "func") as [func|] eqn:Hf; [|discriminate].
    destruct (hasattr func "name"); [|discriminate].
    destruct (getattr func "name") as [[| | |name| | |]|] eqn:Hn;
      try discriminate.
    unfold str_in. rewrite existsb_exists. intros (x & Hin & Hx).
    apply str_eqb_eq in Hx. subst x.
    split; [exact Hc|]. exists func, name. auto.
  - intros (Hc & func & name & Hf & Hn & Hin).
    rewrite Hc, Hf. cbn [class_eqb].
    rewrite (hasattr_getattr _ _ _ Hn), Hn. simpl.
    now apply (str_in_In name gettext_names).
Qed.
